(** * ECDSA over a native engine: the Go package [openssl], file [ecdsa.go]

    The package is a thin layer between Go values ([big.Int], byte slices,
    [string]) and a native cryptographic engine reached through cgo.  The
    development below embeds

    - the Go functions of [ecdsa.go] as state-passing programs over a
      native world (engine state, ledger of native objects that this
      layer allocated and has not released yet, log of native calls);
    - the native engine as an interface ([OpenSSL]) whose answers are not
      constrained: every theorem holds for every engine;
    - the part of [encoding/asn1] that [ecdsa.go] uses, the DER codec of
      the two-INTEGER SEQUENCE [ecdsaSignature]. *)

From Stdlib Require Import String ZArith List Bool Lia.
From coqutil Require Import Byte Word.LittleEndianList Z.BitOps.
Import ListNotations.
Local Open Scope Z_scope.

(* ===================================================================== *)
(** ** Go values                                                          *)
(* ===================================================================== *)

(** A [*big.Int]: a pointer to an arbitrary-precision integer; [None] is
    the nil pointer. *)
Definition big_Int := option Z.

(** [type ecdsaSignature struct { R, S *big.Int }] *)
Module ecdsaSignature.
Record t : Type := mk { R : big_Int; S : big_Int }.
(** The zero value, [var esig ecdsaSignature]. *)
Definition zero : t := mk None None.
End ecdsaSignature.

(* ===================================================================== *)
(** ** [math/big]: magnitude to and from big-endian bytes                 *)
(* ===================================================================== *)

(** Modelled from the spec: [math/big] belongs to the Go standard library
    and is not among the sources of this package.  Only the two
    conversions "from/decomposition to byte buffers" are needed, by the
    codec below: an integer's magnitude as big-endian bytes, and back. *)
Module big.

(** Number of base-256 digits of a non-negative integer; zero has none. *)
Definition byteLen (m : Z) : nat :=
  if m <=? 0 then O else S (Z.to_nat (Z.log2 m / 8)).

(** [Int.Bytes]: the absolute value as a big-endian byte slice without
    leading zero bytes. *)
Definition Bytes (x : Z) : list byte :=
  let m := Z.abs x in rev (le_split (byteLen m) m).

(** [Int.SetBytes]: the big-endian unsigned integer held by a slice. *)
Definition SetBytes (buf : list byte) : Z := le_combine (rev buf).

End big.

(* ===================================================================== *)
(** ** [encoding/asn1] at the type [ecdsaSignature]                       *)
(* ===================================================================== *)

(** Modelled from the spec: [asn1.Marshal] and [asn1.Unmarshal] belong to
    the Go standard library and are not among the sources of this package;
    [ecdsa.go] only calls them at the struct [ecdsaSignature].  The wire
    format is the "standard DER encoding of a two-field integer sequence
    (R, S)", each INTEGER big-endian "with no superfluous leading zero byte
    beyond what sign-bit correctness requires".  The functions below are
    that codec, laid out as the library lays it out (tag and length header,
    minimal two's-complement INTEGER body, fields read in order).  The
    library's error values are collapsed into the single [Error]: no caller
    in [ecdsa.go] inspects them. *)
Module asn1.

Inductive error : Type := Error.

Definition ClassUniversal : Z := 0.
Definition TagInteger : Z := 2.
Definition TagSequence : Z := 16.

(** [b & 0x80 != 0] *)
Definition highBit (b : byte) : bool :=
  negb (Z.land (byte.unsigned b) 0x80 =? 0).

(** [b ^ 0xff] *)
Definition complement (b : byte) : byte := byte.xor b Byte.xff.

(** *** Encoding *)

(** The body of an INTEGER: minimal two's complement, big-endian.  A nil
    pointer is the error "empty integer". *)
Definition makeBigInt (n : big_Int) : list byte * option error :=
  match n with
  | None => ([], Some Error)
  | Some n =>
      if n <? 0 then
        let nMinus1 := - n - 1 in
        let bytes := map complement (big.Bytes nMinus1) in
        match bytes with
        | [] => (Byte.xff :: bytes, None)
        | b :: _ =>
            if highBit b then (bytes, None) else (Byte.xff :: bytes, None)
        end
      else if n =? 0 then ([Byte.x00], None)
      else
        let bytes := big.Bytes n in
        match bytes with
        | b :: _ =>
            if highBit b then (Byte.x00 :: bytes, None) else (bytes, None)
        | [] => (bytes, None)
        end
  end.

(** Number of base-256 digits of a length, at least one. *)
Definition lengthLength (i : Z) : nat := Nat.max 1 (big.byteLen i).

(** The length in base 256, big-endian, on [lengthLength i] bytes. *)
Definition appendLength (i : Z) : list byte :=
  rev (le_split (lengthLength i) i).

(** Identifier octet and length octets of a value (tags below 31 only:
    the two tags in use are 2 and 16). *)
Definition appendTagAndLength (class tag : Z) (isCompound : bool)
    (len : Z) : list byte :=
  let b := Z.lor (Z.lor (Z.shiftl class 6) (if isCompound then 0x20 else 0)) tag in
  byte.of_Z b ::
    (if 128 <=? len
     then byte.of_Z (Z.lor 0x80 (Z.of_nat (lengthLength len))) :: appendLength len
     else [byte.of_Z len]).

(** One [*big.Int] field: header, then body. *)
Definition makeField (n : big_Int) : list byte * option error :=
  match makeBigInt n with
  | (_, Some e) => ([], Some e)
  | (body, None) =>
      (appendTagAndLength ClassUniversal TagInteger false
         (Z.of_nat (length body)) ++ body, None)
  end.

(** [asn1.Marshal(ecdsaSignature{r, s})] *)
Definition Marshal (val : ecdsaSignature.t) : list byte * option error :=
  match makeField (ecdsaSignature.R val) with
  | (_, Some e) => ([], Some e)
  | (fr, None) =>
      match makeField (ecdsaSignature.S val) with
      | (_, Some e) => ([], Some e)
      | (fs, None) =>
          let body := fr ++ fs in
          (appendTagAndLength ClassUniversal TagSequence true
             (Z.of_nat (length body)) ++ body, None)
      end
  end.

(** *** Decoding *)

Record tagAndLength : Type :=
  { class : Z; tag : Z; len : Z; isCompound : bool }.

(** The long form of a length: [numBytes] octets, most significant first.
    A length of 2^31 or more is refused ("length too large"), and so is a
    leading zero octet. *)
Fixpoint parseLongLength (numBytes : nat) (acc : Z) (bytes : list byte)
    : option (Z * list byte) :=
  match numBytes with
  | O => Some (acc, bytes)
  | Datatypes.S n =>
      match bytes with
      | [] => None
      | b :: rest =>
          if 2 ^ 23 <=? acc then None
          else
            let acc' := Z.lor (Z.shiftl acc 8) (byte.unsigned b) in
            if acc' =? 0 then None else parseLongLength n acc' rest
      end
  end.

(** Identifier and length octets.  The multi-octet tag form (low five bits
    all set) encodes tag numbers of 31 and more; neither universal tag
    expected here is one, so that form is refused at once. *)
Definition parseTagAndLength (bytes : list byte)
    : option (tagAndLength * list byte) :=
  match bytes with
  | [] => None
  | b :: bytes1 =>
      let b := byte.unsigned b in
      let cls := Z.shiftr b 6 in
      let compound := Z.land b 0x20 =? 0x20 in
      let tg := Z.land b 0x1f in
      if tg =? 0x1f then None
      else
        match bytes1 with
        | [] => None
        | l :: bytes2 =>
            let l := byte.unsigned l in
            if Z.land l 0x80 =? 0 then
              Some ({| class := cls; tag := tg; len := Z.land l 0x7f;
                       isCompound := compound |}, bytes2)
            else
              let numBytes := Z.land l 0x7f in
              if numBytes =? 0 then None
              else
                match parseLongLength (Z.to_nat numBytes) 0 bytes2 with
                | None => None
                | Some (n, bytes3) =>
                    if n <? 0x80 then None
                    else Some ({| class := cls; tag := tg; len := n;
                                  isCompound := compound |}, bytes3)
                end
        end
  end.

(** An INTEGER body must be non-empty and minimal. *)
Definition checkInteger (bytes : list byte) : bool :=
  match bytes with
  | [] => false
  | [_] => true
  | b0 :: b1 :: _ =>
      negb ((byte.unsigned b0 =? 0) && negb (highBit b1)
            || (byte.unsigned b0 =? 0xff) && highBit b1)
  end.

Definition parseBigInt (bytes : list byte) : option Z :=
  if checkInteger bytes then
    match bytes with
    | b :: _ =>
        if highBit b
        then Some (- (big.SetBytes (map complement bytes) + 1))
        else Some (big.SetBytes bytes)
    | [] => Some (big.SetBytes bytes)
    end
  else None.

(** Header of a field with the expected universal tag, then its content
    and what follows it. *)
Definition parseHeader (expectedTag : Z) (compoundType : bool)
    (bytes : list byte) : option (list byte * list byte) :=
  match bytes with
  | [] => None
  | _ =>
      match parseTagAndLength bytes with
      | None => None
      | Some (t, rest) =>
          if negb ((class t =? ClassUniversal) && (tag t =? expectedTag)
                   && Bool.eqb (isCompound t) compoundType)
          then None
          else if Z.of_nat (length rest) <? len t then None
          else Some (firstn (Z.to_nat (len t)) rest,
                     skipn (Z.to_nat (len t)) rest)
      end
  end.

(** One [*big.Int] field. *)
Definition parseField (bytes : list byte) : option (Z * list byte) :=
  match parseHeader TagInteger false bytes with
  | None => None
  | Some (inner, rest) =>
      match parseBigInt inner with
      | None => None
      | Some v => Some (v, rest)
      end
  end.

(** [asn1.Unmarshal(b, &esig)] on a zero [esig]: the struct as the call
    leaves it, the bytes after the SEQUENCE, and the error.  Bytes left
    inside the SEQUENCE after the second field are accepted, and a field
    decoded before a later one fails stays set. *)
Definition Unmarshal (b : list byte)
    : ecdsaSignature.t * list byte * option error :=
  match parseHeader TagSequence true b with
  | None => (ecdsaSignature.zero, [], Some Error)
  | Some (inner, rest) =>
      match parseField inner with
      | None => (ecdsaSignature.zero, [], Some Error)
      | Some (r, inner1) =>
          match parseField inner1 with
          | None => (ecdsaSignature.mk (Some r) None, [], Some Error)
          | Some (s, _) =>
              (ecdsaSignature.mk (Some r) (Some s), rest, None)
          end
      end
  end.

End asn1.

(* ===================================================================== *)
(** ** Go runtime and cgo types                                           *)
(* ===================================================================== *)

(** A Go call either returns or panics. *)
Inductive outcome (A : Type) : Type :=
| Returns (a : A)
| Panics (reason : string).
Arguments Returns {A} a.
Arguments Panics {A} reason.

(** A native pointer; [nil] is the null pointer. *)
Definition ptr : Type := Z.
Definition nil : ptr := 0.

(** [C.int]: 32 bits, signed.  [C.uint]: 32 bits, unsigned. *)
Definition C_int (z : Z) : Z := (z + 2 ^ 31) mod 2 ^ 32 - 2 ^ 31.
Definition C_uint (z : Z) : Z := z mod 2 ^ 32.

(** The native types this file allocates and releases. *)
Inductive kind : Type := EC_KEY | EC_POINT | BIGNUM.

Definition kind_eqb (a b : kind) : bool :=
  match a, b with
  | EC_KEY, EC_KEY | EC_POINT, EC_POINT | BIGNUM, BIGNUM => true
  | _, _ => false
  end.

(** The native functions and package helpers [ecdsa.go] calls. *)
Inductive cfun : Type :=
| fn_EC_KEY_new_by_curve_name
| fn_EC_KEY_get0_group
| fn_EC_POINT_new
| fn_EC_POINT_set_affine_coordinates_GFp
| fn_EC_POINT_get_affine_coordinates_GFp
| fn_EC_KEY_set_public_key
| fn_EC_KEY_set_private_key
| fn_EC_KEY_generate_key
| fn_EC_KEY_get0_public_key
| fn_EC_KEY_get0_private_key
| fn_BN_new
| fn_ECDSA_size
| fn_ECDSA_sign
| fn_ECDSA_verify
| fn_bigToBN
| fn_bnToBig.

(** What the log of a run records: a call with the pointer or integer it
    returned, the release of a native object, the construction of an
    engine error with the message given at the call site, and the two
    [runtime] calls on a wrapper's handle. *)
Inductive event : Type :=
| Call (f : cfun) (ret : Z)
| Release (k : kind) (p : ptr)
| Raised (msg : string)
| SetFinalizer (p : ptr)
| KeepAlive (p : ptr).

(** Errors returned by this file: the two package variables, the error
    built by [newOpenSSLError], and an error of the ASN.1 codec. *)
Inductive error : Type :=
| errUnknownCurve
| errUnsupportedCurve
| OpenSSLError (msg : string) (diagnostic : string)
| Asn1Error (e : asn1.error).

(** [type PrivateKeyECDSA struct { key *C.EC_KEY }] *)
Module PrivateKeyECDSA.
Record t : Type := mk { key : ptr }.
End PrivateKeyECDSA.

(** [type PublicKeyECDSA struct { key *C.EC_KEY }] *)
Module PublicKeyECDSA.
Record t : Type := mk { key : ptr }.
End PublicKeyECDSA.

(* ===================================================================== *)
(** ** The native engine                                                  *)
(* ===================================================================== *)

(** The engine is a state of unknown type and, for each native function,
    the answer it gives in a state and the state it leaves.  Nothing is
    assumed of the answers: allocation may fail at any call, every
    operation may fail, addresses are the engine's choice.

    The four curve identifiers are constants of [goopenssl.h], which is
    not among the sources: they are parameters, of unknown value.

    [toNative], [fromNative] and [diagnostics] stand for the engine side of
    the package helpers [bigToBN], [bnToBig] and [newOpenSSLError]. *)
Class OpenSSL (engine : Type) : Type := {
  NID_secp224r1 : Z;
  NID_X9_62_prime256v1 : Z;
  NID_secp384r1 : Z;
  NID_secp521r1 : Z;
  EC_KEY_new_by_curve_name : Z -> engine -> ptr * engine;
  EC_KEY_free : ptr -> engine -> engine;
  EC_KEY_get0_group : ptr -> engine -> ptr * engine;
  EC_KEY_generate_key : ptr -> engine -> Z * engine;
  EC_KEY_get0_public_key : ptr -> engine -> ptr * engine;
  EC_KEY_get0_private_key : ptr -> engine -> ptr * engine;
  EC_KEY_set_public_key : ptr -> ptr -> engine -> Z * engine;
  EC_KEY_set_private_key : ptr -> ptr -> engine -> Z * engine;
  EC_POINT_new : ptr -> engine -> ptr * engine;
  EC_POINT_free : ptr -> engine -> engine;
  EC_POINT_set_affine_coordinates_GFp :
    ptr -> ptr -> ptr -> ptr -> ptr -> engine -> Z * engine;
  EC_POINT_get_affine_coordinates_GFp :
    ptr -> ptr -> ptr -> ptr -> ptr -> engine -> Z * engine;
  BN_new : engine -> ptr * engine;
  BN_free : ptr -> engine -> engine;
  ECDSA_size : ptr -> engine -> Z * engine;
  (** type, digest, capacity of the output buffer, key: the result, the
      bytes written from the start of the buffer, the length reported *)
  ECDSA_sign :
    Z -> list byte -> nat -> ptr -> engine -> (Z * list byte * Z) * engine;
  (** type, digest, signature, key *)
  ECDSA_verify : Z -> list byte -> list byte -> ptr -> engine -> Z * engine;
  toNative : Z -> engine -> ptr * engine;
  fromNative : ptr -> engine -> Z * engine;
  diagnostics : engine -> string * engine
}.

Section Go.

Context {engine : Type} {openssl : OpenSSL engine}.

(** The native world a Go call runs in. *)
Record World : Type := mkWorld {
  eng : engine;
  (** native objects allocated through this layer and not yet released,
      most recent first; an address the engine hands out twice is listed
      twice *)
  live : list (kind * ptr);
  (** native calls so far, oldest first *)
  log : list event;
  (** handles a finalizer is registered for *)
  finalizers : list ptr
}.

Definition Go (A : Type) : Type := World -> outcome A * World.

Definition ret {A} (a : A) : Go A := fun w => (Returns a, w).

Definition bind {A B} (m : Go A) (k : A -> Go B) : Go B :=
  fun w =>
    match m w with
    | (Returns a, w1) => k a w1
    | (Panics r, w1) => (Panics r, w1)
    end.

Definition panic {A} (reason : string) : Go A := fun w => (Panics reason, w).

(** [defer d] at the head of [body]: [d] runs when [body] returns or
    panics, and its own result is dropped. *)
Definition defer {A} (d : Go unit) (body : Go A) : Go A :=
  fun w => let (r, w1) := body w in (r, snd (d w1)).

End Go.

Arguments World engine : clear implicits.
Arguments Go engine A : clear implicits.

Declare Scope go_scope.
Delimit Scope go_scope with go.
Notation "x <- m ;; k" := (bind m (fun x => k))
  (at level 61, m at next level, right associativity) : go_scope.
Notation "' pat <- m ;; k" := (bind m (fun x => match x with pat => k end))
  (at level 61, pat pattern, m at next level, right associativity) : go_scope.
Notation "m ;;; k" := (bind m (fun _ => k))
  (at level 61, right associativity) : go_scope.

Section Native.

Context {engine : Type} {openssl : OpenSSL engine}.
Local Open Scope go_scope.

Definition with_eng (w : World engine) (e : engine) (ev : event)
    : World engine :=
  mkWorld e (live w) (log w ++ [ev]) (finalizers w).

(** Removes one listing of a native object from the ledger. *)
Fixpoint release (k : kind) (p : ptr) (l : list (kind * ptr))
    : list (kind * ptr) :=
  match l with
  | [] => []
  | (k', p') :: l' =>
      if kind_eqb k k' && (p =? p') then l' else (k', p') :: release k p l'
  end.

(** A native call that returns an [int]. *)
Definition native_int (f : cfun) (c : engine -> Z * engine) : Go engine Z :=
  fun w => let (r, e) := c (eng w) in
           (Returns (C_int r), with_eng w e (Call f (C_int r))).

(** A native call that returns a pointer into an object owned elsewhere. *)
Definition native_get0 (f : cfun) (c : engine -> ptr * engine)
    : Go engine ptr :=
  fun w => let (p, e) := c (eng w) in (Returns p, with_eng w e (Call f p)).

(** A native call that allocates: a non-null result enters the ledger. *)
Definition native_new (k : kind) (f : cfun) (c : engine -> ptr * engine)
    : Go engine ptr :=
  fun w => let (p, e) := c (eng w) in
           (Returns p,
            mkWorld e (if p =? nil then live w else (k, p) :: live w)
                    (log w ++ [Call f p]) (finalizers w)).

(** A native call that releases an object. *)
Definition native_free (k : kind) (c : ptr -> engine -> engine) (p : ptr)
    : Go engine unit :=
  fun w => (Returns tt,
            mkWorld (c p (eng w)) (release k p (live w))
                    (log w ++ [Release k p]) (finalizers w)).

Definition go_openssl_EC_KEY_new_by_curve_name (nid : Z) :=
  native_new EC_KEY fn_EC_KEY_new_by_curve_name (EC_KEY_new_by_curve_name nid).
Definition go_openssl_EC_KEY_free := native_free EC_KEY EC_KEY_free.
Definition go_openssl_EC_KEY_get0_group (key : ptr) :=
  native_get0 fn_EC_KEY_get0_group (EC_KEY_get0_group key).
Definition go_openssl_EC_KEY_generate_key (key : ptr) :=
  native_int fn_EC_KEY_generate_key (EC_KEY_generate_key key).
Definition go_openssl_EC_KEY_get0_public_key (key : ptr) :=
  native_get0 fn_EC_KEY_get0_public_key (EC_KEY_get0_public_key key).
Definition go_openssl_EC_KEY_get0_private_key (key : ptr) :=
  native_get0 fn_EC_KEY_get0_private_key (EC_KEY_get0_private_key key).
Definition go_openssl_EC_KEY_set_public_key (key pt : ptr) :=
  native_int fn_EC_KEY_set_public_key (EC_KEY_set_public_key key pt).
Definition go_openssl_EC_KEY_set_private_key (key bd : ptr) :=
  native_int fn_EC_KEY_set_private_key (EC_KEY_set_private_key key bd).
Definition go_openssl_EC_POINT_new (group : ptr) :=
  native_new EC_POINT fn_EC_POINT_new (EC_POINT_new group).
Definition go_openssl_EC_POINT_free := native_free EC_POINT EC_POINT_free.
Definition go_openssl_EC_POINT_set_affine_coordinates_GFp
    (group pt bx by_ ctx : ptr) :=
  native_int fn_EC_POINT_set_affine_coordinates_GFp
    (EC_POINT_set_affine_coordinates_GFp group pt bx by_ ctx).
Definition go_openssl_EC_POINT_get_affine_coordinates_GFp
    (group pt bx by_ ctx : ptr) :=
  native_int fn_EC_POINT_get_affine_coordinates_GFp
    (EC_POINT_get_affine_coordinates_GFp group pt bx by_ ctx).
Definition go_openssl_BN_new := native_new BIGNUM fn_BN_new BN_new.
Definition go_openssl_BN_free := native_free BIGNUM BN_free.
Definition go_openssl_ECDSA_size (key : ptr) :=
  native_int fn_ECDSA_size (ECDSA_size key).

(** What a Go slice of fixed length holds after native code wrote [out]
    from its start. *)
Definition written (buf out : list byte) : list byte :=
  firstn (length buf) (out ++ skipn (length out) buf).

(** [ECDSA_sign(type, dgst, dlen, sig, &siglen, key)]: the result, the
    buffer after the call and [siglen] after the call. *)
Definition go_openssl_ECDSA_sign (type : Z) (hash sig : list byte)
    (key : ptr) : Go engine (Z * list byte * Z) :=
  fun w =>
    let '(r, out, sigLen, e) := ECDSA_sign type hash (length sig) key (eng w) in
    (Returns (C_int r, written sig out, C_uint sigLen),
     with_eng w e (Call fn_ECDSA_sign (C_int r))).

Definition go_openssl_ECDSA_verify (type : Z) (hash sig : list byte)
    (key : ptr) :=
  native_int fn_ECDSA_verify (ECDSA_verify type hash sig key).

(** *** Package helpers declared outside [ecdsa.go] *)

(** Modelled from the spec: [bigToBN] is declared in another file of the
    package.  "toNative(big: Integer) -> NativeBigNum | null-on-failure":
    a native bignum is allocated for the integer, or null is returned. *)
Definition bigToBN (x : Z) : Go engine ptr :=
  native_new BIGNUM fn_bigToBN (toNative x).

(** Modelled from the spec: [bnToBig] is declared in another file of the
    package.  "fromNative(native: NativeBigNum) -> Integer": the integer a
    native bignum holds, as a fresh non-nil [*big.Int]. *)
Definition bnToBig (bn : ptr) : Go engine big_Int :=
  fun w => let (v, e) := fromNative bn (eng w) in
           (Returns (Some v), with_eng w e (Call fn_bnToBig v)).

(** Modelled from the spec: [newOpenSSLError] is declared in another file
    of the package.  An EngineError "wraps an engine-provided diagnostic
    string"; the message of the call site is kept beside it. *)
Definition newOpenSSLError (msg : string) : Go engine error :=
  fun w => let (d, e) := diagnostics (eng w) in
           (Returns (OpenSSLError msg d), with_eng w e (Raised msg)).

(** [runtime.SetFinalizer(k, finalize)] on the wrapper of handle [p]. *)
Definition runtime_SetFinalizer (p : ptr) : Go engine unit :=
  fun w => (Returns tt,
            mkWorld (eng w) (live w) (log w ++ [SetFinalizer p])
                    (p :: finalizers w)).

(** [runtime.KeepAlive(k)] on the wrapper of handle [p]: no effect on a
    sequential run; the call is logged. *)
Definition runtime_KeepAlive (p : ptr) : Go engine unit :=
  fun w => (Returns tt, with_eng w (eng w) (KeepAlive p)).

(** [make([]byte, size)] *)
Definition make_bytes (size : Z) : Go engine (list byte) :=
  if size <? 0 then panic "makeslice: len out of range"
  else ret (repeat Byte.x00 (Z.to_nat size)).

(** [&sig[0]] *)
Definition index0 (sig : list byte) : Go engine unit :=
  match sig with
  | [] => panic "index out of range [0] with length 0"
  | _ :: _ => ret tt
  end.

(** [sig[:n]] *)
Definition slice_to (sig : list byte) (n : Z) : Go engine (list byte) :=
  if Z.of_nat (length sig) <? n then panic "slice bounds out of range"
  else ret (firstn (Z.to_nat n) sig).

End Native.

(* ===================================================================== *)
(** ** [ecdsa.go]                                                         *)
(* ===================================================================== *)

(** Go's multiple results are tuples, with [None] for a nil [error] and
    [[]] for a nil slice.  A [*PrivateKeyECDSA] or [*PublicKeyECDSA]
    argument is a key, so the wrapper itself stands for the pointer; the
    integers X, Y and D given to [bigToBN], whose contract takes an
    integer, are integers. *)
Section Ecdsa.

Context {engine : Type} {openssl : OpenSSL engine}.
Local Open Scope go_scope.

(** [func curveNID(curve string) (C.int, error)] *)
Definition curveNID (curve : string) : Z * option error :=
  if String.eqb curve "P-224" then (NID_secp224r1, None)
  else if String.eqb curve "P-256" then (NID_X9_62_prime256v1, None)
  else if String.eqb curve "P-384" then (NID_secp384r1, None)
  else if String.eqb curve "P-521" then (NID_secp521r1, None)
  else (0, Some errUnknownCurve).

(** [func newECKey(curve string, X, Y *big.Int) ( *C.EC_KEY, error)] *)
Definition newECKey (curve : string) (X Y : Z)
    : Go engine (ptr * option error) :=
  let (nid, err) := curveNID curve in
  match err with
  | Some e => ret (nil, Some e)
  | None =>
      key <- go_openssl_EC_KEY_new_by_curve_name nid ;;
      if key =? nil then
        e <- newOpenSSLError "EC_KEY_new_by_curve_name failed" ;;
        ret (nil, Some e)
      else
        group <- go_openssl_EC_KEY_get0_group key ;;
        pt <- go_openssl_EC_POINT_new group ;;
        if pt =? nil then
          go_openssl_EC_KEY_free key ;;;
          e <- newOpenSSLError "EC_POINT_new failed" ;;
          ret (nil, Some e)
        else
          bx <- bigToBN X ;;
          by_ <- bigToBN Y ;;
          ok <- (if negb (bx =? nil) && negb (by_ =? nil) then
                   r1 <- go_openssl_EC_POINT_set_affine_coordinates_GFp
                           group pt bx by_ nil ;;
                   if negb (r1 =? 0) then
                     r2 <- go_openssl_EC_KEY_set_public_key key pt ;;
                     ret (negb (r2 =? 0))
                   else ret false
                 else ret false) ;;
          (if negb (bx =? nil) then go_openssl_BN_free bx else ret tt) ;;;
          (if negb (by_ =? nil) then go_openssl_BN_free by_ else ret tt) ;;;
          go_openssl_EC_POINT_free pt ;;;
          if negb ok then
            go_openssl_EC_KEY_free key ;;;
            e <- newOpenSSLError "EC_POINT_free failed" ;;
            ret (nil, Some e)
          else ret (key, None)
  end.

(** [func NewPublicKeyECDSA(curve string, X, Y *big.Int)
      ( *PublicKeyECDSA, error)] *)
Definition NewPublicKeyECDSA (curve : string) (X Y : Z)
    : Go engine (option PublicKeyECDSA.t * option error) :=
  '(key, err) <- newECKey curve X Y ;;
  match err with
  | Some e => ret (None, Some e)
  | None =>
      let k := PublicKeyECDSA.mk key in
      runtime_SetFinalizer (PublicKeyECDSA.key k) ;;;
      ret (Some k, None)
  end.

(** [func NewPrivateKeyECDSA(curve string, X, Y *big.Int, D *big.Int)
      ( *PrivateKeyECDSA, error)] *)
Definition NewPrivateKeyECDSA (curve : string) (X Y D : Z)
    : Go engine (option PrivateKeyECDSA.t * option error) :=
  '(key, err) <- newECKey curve X Y ;;
  match err with
  | Some e => ret (None, Some e)
  | None =>
      bd <- bigToBN D ;;
      ok <- (if negb (bd =? nil) then
               r <- go_openssl_EC_KEY_set_private_key key bd ;;
               ret (negb (r =? 0))
             else ret false) ;;
      (if negb (bd =? nil) then go_openssl_BN_free bd else ret tt) ;;;
      if negb ok then
        go_openssl_EC_KEY_free key ;;;
        e <- newOpenSSLError "EC_KEY_set_private_key failed" ;;
        ret (None, Some e)
      else
        let k := PrivateKeyECDSA.mk key in
        runtime_SetFinalizer (PrivateKeyECDSA.key k) ;;;
        ret (Some k, None)
  end.

(** [func SignMarshalECDSA(priv *PrivateKeyECDSA, hash []byte)
      ([]byte, error)] *)
Definition SignMarshalECDSA (priv : PrivateKeyECDSA.t) (hash : list byte)
    : Go engine (list byte * option error) :=
  size <- go_openssl_ECDSA_size (PrivateKeyECDSA.key priv) ;;
  sig <- make_bytes size ;;
  index0 sig ;;;
  '(r, sig, sigLen) <-
     go_openssl_ECDSA_sign 0 hash sig (PrivateKeyECDSA.key priv) ;;
  if r =? 0 then
    e <- newOpenSSLError "ECDSA_sign failed" ;;
    ret ([], Some e)
  else
    runtime_KeepAlive (PrivateKeyECDSA.key priv) ;;;
    out <- slice_to sig sigLen ;;
    ret (out, None).

(** [func SignECDSA(priv *PrivateKeyECDSA, hash []byte)
      (r, s *big.Int, err error)] *)
Definition SignECDSA (priv : PrivateKeyECDSA.t) (hash : list byte)
    : Go engine (big_Int * big_Int * option error) :=
  '(sig, err) <- SignMarshalECDSA priv hash ;;
  match err with
  | Some e => ret (None, None, Some e)
  | None =>
      let '(esig, _, err) := asn1.Unmarshal sig in
      match err with
      | Some e => ret (None, None, Some (Asn1Error e))
      | None => ret (ecdsaSignature.R esig, ecdsaSignature.S esig, None)
      end
  end.

(** [func VerifyECDSA(pub *PublicKeyECDSA, hash []byte, r, s *big.Int) bool] *)
Definition VerifyECDSA (pub : PublicKeyECDSA.t) (hash : list byte)
    (r s : big_Int) : Go engine bool :=
  let (sig, err) := asn1.Marshal (ecdsaSignature.mk r s) in
  match err with
  | Some _ => ret false
  | None =>
      index0 sig ;;;
      v <- go_openssl_ECDSA_verify 0 hash sig (PublicKeyECDSA.key pub) ;;
      let ok := 0 <? v in
      runtime_KeepAlive (PublicKeyECDSA.key pub) ;;;
      ret ok
  end.

(** [func GenerateKeyECDSA(curve string) (X, Y, D *big.Int, err error)] *)
Definition GenerateKeyECDSA (curve : string)
    : Go engine (big_Int * big_Int * big_Int * option error) :=
  let fail (msg : string) :=
    e <- newOpenSSLError msg ;; ret (None, None, None, Some e) in
  let (nid, err) := curveNID curve in
  match err with
  | Some e => ret (None, None, None, Some e)
  | None =>
      key <- go_openssl_EC_KEY_new_by_curve_name nid ;;
      if key =? nil then fail "EC_KEY_new_by_curve_name failed"%string
      else
        defer (go_openssl_EC_KEY_free key) (
          r <- go_openssl_EC_KEY_generate_key key ;;
          if r =? 0 then fail "EC_KEY_generate_key failed"%string
          else
            group <- go_openssl_EC_KEY_get0_group key ;;
            pt <- go_openssl_EC_KEY_get0_public_key key ;;
            bd <- go_openssl_EC_KEY_get0_private_key key ;;
            if (pt =? nil) || (bd =? nil) then
              fail "EC_KEY_get0_private_key failed"%string
            else
              bx <- go_openssl_BN_new ;;
              if bx =? nil then fail "BN_new failed"%string
              else
                defer (go_openssl_BN_free bx) (
                  by_ <- go_openssl_BN_new ;;
                  if by_ =? nil then fail "BN_new failed"%string
                  else
                    defer (go_openssl_BN_free by_) (
                      r <- go_openssl_EC_POINT_get_affine_coordinates_GFp
                             group pt bx by_ nil ;;
                      if r =? 0 then
                        fail "EC_POINT_get_affine_coordinates_GFp failed"%string
                      else
                        X <- bnToBig bx ;;
                        Y <- bnToBig by_ ;;
                        D <- bnToBig bd ;;
                        ret (X, Y, D, None))))
  end.

End Ecdsa.

(* ===================================================================== *)
(** ** Finalizers                                                         *)
(* ===================================================================== *)

Section Finalizers.

Context {engine : Type} {openssl : OpenSSL engine}.

(** [func (k *PrivateKeyECDSA) finalize()] *)
Definition PrivateKeyECDSA_finalize (k : PrivateKeyECDSA.t) : Go engine unit :=
  go_openssl_EC_KEY_free (PrivateKeyECDSA.key k).

(** [func (k *PublicKeyECDSA) finalize()] *)
Definition PublicKeyECDSA_finalize (k : PublicKeyECDSA.t) : Go engine unit :=
  go_openssl_EC_KEY_free (PublicKeyECDSA.key k).

End Finalizers.

(** The native functions and helpers that allocate an object of a kind. *)
Definition allocates (f : cfun) (k : kind) : bool :=
  match f, k with
  | fn_EC_KEY_new_by_curve_name, EC_KEY
  | fn_EC_POINT_new, EC_POINT
  | fn_BN_new, BIGNUM
  | fn_bigToBN, BIGNUM => true
  | _, _ => false
  end.

(* ===================================================================== *)
(** ** Observations on a run                                              *)
(* ===================================================================== *)

(** The curve names of the registry. *)
Definition supported : list string :=
  ["P-224"; "P-256"; "P-384"; "P-521"]%string.

(** The events a run from [w] to [w'] added to the log. *)
Definition since {engine : Type} (w w' : World engine) : list event :=
  skipn (length (log w)) (log w').

(** A byte slice is a DER signature when it is the encoding of a pair of
    integers. *)
Definition DER_signature (sig : list byte) : Prop :=
  exists r s : Z,
    asn1.Marshal (ecdsaSignature.mk (Some r) (Some s)) = (sig, None).

(** The native calls and conversions whose result key construction
    tests ([newECKey] and [NewPrivateKeyECDSA]). *)
Definition checked_in_construction (f : cfun) : bool :=
  match f with
  | fn_EC_KEY_new_by_curve_name
  | fn_EC_POINT_new
  | fn_bigToBN
  | fn_EC_POINT_set_affine_coordinates_GFp
  | fn_EC_KEY_set_public_key
  | fn_EC_KEY_set_private_key => true
  | _ => false
  end.

(** The native calls whose result [GenerateKeyECDSA] tests. *)
Definition checked_in_generate (f : cfun) : bool :=
  match f with
  | fn_EC_KEY_new_by_curve_name
  | fn_EC_KEY_generate_key
  | fn_EC_KEY_get0_public_key
  | fn_EC_KEY_get0_private_key
  | fn_BN_new
  | fn_EC_POINT_get_affine_coordinates_GFp => true
  | _ => false
  end.

(* ===================================================================== *)
(** ** A scripted engine, to run the functions                            *)
(* ===================================================================== *)

(** The engine replays a script: each call that returns a value takes the
    next answer of the script (1 once the script is used up), signing
    writes the bytes the script holds, and releases take nothing. *)
Module Replay.

Record script : Type := mk { answers : list Z; signature : list byte }.

Definition next (s : script) : Z * script :=
  match answers s with
  | [] => (1, s)
  | a :: rest => (a, mk rest (signature s))
  end.

Definition sign (s : script) : (Z * list byte * Z) * script :=
  let (r, s1) := next s in
  let (n, s2) := next s1 in
  ((r, signature s, n), s2).

#[global] Instance engine : OpenSSL script := {|
  NID_secp224r1 := 713;
  NID_X9_62_prime256v1 := 415;
  NID_secp384r1 := 715;
  NID_secp521r1 := 716;
  EC_KEY_new_by_curve_name := fun _ => next;
  EC_KEY_free := fun _ s => s;
  EC_KEY_get0_group := fun _ => next;
  EC_KEY_generate_key := fun _ => next;
  EC_KEY_get0_public_key := fun _ => next;
  EC_KEY_get0_private_key := fun _ => next;
  EC_KEY_set_public_key := fun _ _ => next;
  EC_KEY_set_private_key := fun _ _ => next;
  EC_POINT_new := fun _ => next;
  EC_POINT_free := fun _ s => s;
  EC_POINT_set_affine_coordinates_GFp := fun _ _ _ _ _ => next;
  EC_POINT_get_affine_coordinates_GFp := fun _ _ _ _ _ => next;
  BN_new := next;
  BN_free := fun _ s => s;
  ECDSA_size := fun _ => next;
  ECDSA_sign := fun _ _ _ _ => sign;
  ECDSA_verify := fun _ _ _ _ => next;
  toNative := fun _ => next;
  fromNative := fun _ => next;
  diagnostics := fun s => (EmptyString, s)
|}.

(** A world with nothing allocated and nothing logged. *)
Definition world (a : list Z) (sig : list byte) : World script :=
  mkWorld (mk a sig) [] [] [].

(** The DER signature of the pair (1, 2). *)
Definition der12 : list byte :=
  [Byte.x30; Byte.x06; Byte.x02; Byte.x01; Byte.x01; Byte.x02; Byte.x01;
   Byte.x02].

End Replay.


(* ===================================================================== *)
(** ** The codec: encoding then decoding                                  *)
(* ===================================================================== *)

Lemma lor_shiftl_add (lo hi n : Z) :
  0 <= n -> 0 <= lo < 2 ^ n -> Z.lor lo (Z.shiftl hi n) = lo + hi * 2 ^ n.
Proof.
  intros Hn Hlo.
  rewrite or_to_plus.
  - now rewrite Z.shiftl_mul_pow2.
  - apply Z.bits_inj'. intros i Hi.
    rewrite Z.land_spec, Z.bits_0.
    destruct (Z.ltb_spec i n).
    + rewrite Z.shiftl_spec_low by assumption. apply andb_false_r.
    + rewrite <- (Z.mod_small lo (2 ^ n)) by assumption.
      rewrite Z.mod_pow2_bits_high by lia. reflexivity.
Qed.

Lemma le_split_snoc (n : nat) : forall z,
  le_split (S n) z = le_split n z ++ [byte.of_Z (Z.shiftr z (8 * Z.of_nat n))].
Proof.
  induction n; intros z.
  - cbn [le_split app]. now rewrite Z.shiftr_0_r.
  - change (le_split (S (S n)) z) with (byte.of_Z z :: le_split (S n) (Z.shiftr z 8)).
    rewrite IHn. change (le_split (S n) z) with (byte.of_Z z :: le_split n (Z.shiftr z 8)).
    cbn [app]. rewrite Z.shiftr_shiftr by lia.
    replace (8 + 8 * Z.of_nat n) with (8 * Z.of_nat (S n)) by lia. reflexivity.
Qed.

Lemma SetBytes_Bytes (n : Z) : 0 <= n -> big.SetBytes (big.Bytes n) = n.
Proof.
  intros Hn. unfold big.SetBytes, big.Bytes.
  rewrite rev_involutive, Z.abs_eq, le_combine_split by assumption.
  apply Z.mod_small. split; [assumption|].
  unfold big.byteLen. destruct (Z.leb_spec n 0).
  - cbn. lia.
  - pose proof (Z.log2_nonneg n).
    assert (0 <= Z.log2 n / 8) by (apply Z.div_pos; lia).
    rewrite Nat2Z.inj_succ, Z2Nat.id by assumption.
    apply Z.log2_lt_pow2; [assumption|].
    pose proof (Z.mod_pos_bound (Z.log2 n) 8 ltac:(lia)).
    pose proof (Z.div_mod (Z.log2 n) 8 ltac:(lia)). lia.
Qed.

Lemma SetBytes_cons (b : byte) (l : list byte) :
  big.SetBytes (b :: l) = byte.unsigned b * 2 ^ (8 * Z.of_nat (length l)) + big.SetBytes l.
Proof.
  unfold big.SetBytes. cbn [rev].
  rewrite le_combine_app, le_combine_1, length_rev.
  pose proof (le_combine_bound (rev l)) as Hb. rewrite length_rev in Hb.
  rewrite lor_shiftl_add; [| lia |].
  - replace (Z.of_nat (length l) * 8) with (8 * Z.of_nat (length l)) by lia. lia.
  - replace (Z.of_nat (length l) * 8) with (8 * Z.of_nat (length l)) by lia. exact Hb.
Qed.

Lemma SetBytes_nil : big.SetBytes [] = 0.
Proof. reflexivity. Qed.

Lemma SetBytes_bound (l : list byte) :
  0 <= big.SetBytes l < 2 ^ (8 * Z.of_nat (length l)).
Proof.
  unfold big.SetBytes. pose proof (le_combine_bound (rev l)) as Hb.
  now rewrite length_rev in Hb.
Qed.

Lemma SetBytes_x00 (l : list byte) : big.SetBytes (Byte.x00 :: l) = big.SetBytes l.
Proof. rewrite SetBytes_cons. change (byte.unsigned Byte.x00) with 0. lia. Qed.

(** The first byte of the magnitude of a positive integer is not zero. *)
Lemma Bytes_head (n : Z) :
  0 < n -> exists b tl, big.Bytes n = b :: tl /\ byte.unsigned b <> 0.
Proof.
  intros Hn. unfold big.Bytes, big.byteLen. rewrite Z.abs_eq by lia.
  destruct (Z.leb_spec n 0); [lia|].
  rewrite le_split_snoc, rev_app_distr. cbn [rev app].
  eexists _, _. split; [reflexivity|].
  rewrite byte.unsigned_of_Z. unfold byte.wrap.
  pose proof (Z.log2_nonneg n).
  assert (0 <= Z.log2 n / 8) by (apply Z.div_pos; lia).
  rewrite Z2Nat.id by assumption.
  rewrite Z.shiftr_div_pow2 by lia.
  pose proof (Z.mod_pos_bound (Z.log2 n) 8 ltac:(lia)).
  pose proof (Z.div_mod (Z.log2 n) 8 ltac:(lia)).
  pose proof (Z.log2_spec n Hn) as [Hlo Hhi].
  set (k := 8 * (Z.log2 n / 8)) in *.
  assert (Hk : 0 <= k) by (unfold k; lia).
  assert (2 ^ k <= n).
  { eapply Z.le_trans; [|exact Hlo]. apply Z.pow_le_mono_r; lia. }
  assert (n < 2 ^ k * 2 ^ 8).
  { rewrite <- Z.pow_add_r by lia. eapply Z.lt_le_trans; [exact Hhi|].
    apply Z.pow_le_mono_r; lia. }
  assert (0 < 2 ^ k) by (apply Z.pow_pos_nonneg; lia).
  assert (1 <= n / 2 ^ k) by (apply Z.div_le_lower_bound; lia).
  assert (n / 2 ^ k < 2 ^ 8) by (apply Z.div_lt_upper_bound; lia).
  rewrite Z.mod_small by lia. lia.
Qed.

Lemma highBit_spec (b : byte) : asn1.highBit b = (128 <=? byte.unsigned b).
Proof. destruct b; vm_compute; reflexivity. Qed.

Lemma complement_involutive (b : byte) : asn1.complement (asn1.complement b) = b.
Proof. destruct b; vm_compute; reflexivity. Qed.

Lemma unsigned_complement (b : byte) :
  byte.unsigned (asn1.complement b) = 255 - byte.unsigned b.
Proof. destruct b; vm_compute; reflexivity. Qed.

Lemma map_complement_involutive (l : list byte) :
  map asn1.complement (map asn1.complement l) = l.
Proof.
  induction l as [|b l IH]; cbn [map]; [reflexivity|].
  now rewrite complement_involutive, IH.
Qed.

Lemma checkInteger_lead (b : byte) (tl : list byte) :
  byte.unsigned b <> 0 -> byte.unsigned b <> 255 ->
  asn1.checkInteger (b :: tl) = true.
Proof.
  intros H0 Hff. destruct tl as [|b1 tl]; [reflexivity|].
  cbn [asn1.checkInteger].
  destruct (Z.eqb_spec (byte.unsigned b) 0); [contradiction|].
  destruct (Z.eqb_spec (byte.unsigned b) 0xff); [contradiction|].
  reflexivity.
Qed.

Lemma checkInteger_pad00 (b1 : byte) (tl : list byte) :
  asn1.highBit b1 = true -> asn1.checkInteger (Byte.x00 :: b1 :: tl) = true.
Proof. intros H. cbn [asn1.checkInteger]. rewrite H. reflexivity. Qed.

Lemma checkInteger_padff (b1 : byte) (tl : list byte) :
  asn1.highBit b1 = false -> asn1.checkInteger (Byte.xff :: b1 :: tl) = true.
Proof. intros H. cbn [asn1.checkInteger]. rewrite H. reflexivity. Qed.

(** Encoding never fails on a non-nil integer, and its body is not empty. *)
Lemma makeBigInt_some (n : Z) :
  exists b tl, asn1.makeBigInt (Some n) = (b :: tl, None).
Proof.
  unfold asn1.makeBigInt.
  destruct (Z.ltb_spec n 0).
  - destruct (map asn1.complement (big.Bytes (- n - 1))) as [|b tl]; [eauto|].
    destruct (asn1.highBit b); eauto.
  - destruct (Z.eqb_spec n 0); [eauto|].
    destruct (Bytes_head n ltac:(lia)) as (b & tl & -> & _).
    destruct (asn1.highBit b); eauto.
Qed.

(** The INTEGER body decodes to the integer it was made from. *)
Lemma parseBigInt_makeBigInt (n : Z) :
  asn1.parseBigInt (fst (asn1.makeBigInt (Some n))) = Some n.
Proof.
  unfold asn1.makeBigInt.
  destruct (Z.ltb_spec n 0) as [Hneg|Hnn].
  - destruct (Z.eq_dec n (-1)) as [->|Hm1]; [reflexivity|].
    destruct (Bytes_head (- n - 1) ltac:(lia)) as (b & tl & Hb & Hb0).
    pose proof (SetBytes_Bytes (- n - 1) ltac:(lia)) as Hv.
    rewrite Hb in *. cbn [map].
    pose proof (unsigned_complement b) as Hc.
    pose proof (byte.unsigned_range b) as Hr.
    destruct (asn1.highBit (asn1.complement b)) eqn:Hh; cbn [fst];
      unfold asn1.parseBigInt.
    + rewrite checkInteger_lead
        by (rewrite highBit_spec in Hh; apply Z.leb_le in Hh; lia).
      rewrite Hh. rewrite <- (map_cons asn1.complement b tl : _ = asn1.complement b :: _).
      rewrite map_complement_involutive, Hv. f_equal. lia.
    + rewrite checkInteger_padff by assumption.
      change (asn1.highBit Byte.xff) with true. cbv iota.
      rewrite <- (map_cons asn1.complement b tl : _ = asn1.complement b :: _).
      change (Byte.xff :: map asn1.complement (b :: tl))
        with (map asn1.complement (Byte.x00 :: b :: tl)).
      rewrite map_complement_involutive, SetBytes_x00, Hv. f_equal. lia.
  - destruct (Z.eqb_spec n 0) as [->|Hn0]; [reflexivity|].
    destruct (Bytes_head n ltac:(lia)) as (b & tl & Hb & Hb0).
    pose proof (SetBytes_Bytes n ltac:(lia)) as Hv.
    rewrite Hb in *.
    destruct (asn1.highBit b) eqn:Hh; cbn [fst]; unfold asn1.parseBigInt.
    + rewrite checkInteger_pad00 by assumption.
      change (asn1.highBit Byte.x00) with false. cbv iota.
      now rewrite SetBytes_x00, Hv.
    + rewrite checkInteger_lead
        by (try assumption; rewrite highBit_spec in Hh; apply Z.leb_gt in Hh; lia).
      now rewrite Hh, Hv.
Qed.

Lemma parseLongLength_app (bs : list byte) : forall acc rest,
  0 <= acc ->
  acc <> 0 \/ match bs with b :: _ => byte.unsigned b <> 0 | [] => True end ->
  acc * 2 ^ (8 * Z.of_nat (length bs)) + big.SetBytes bs < 2 ^ 31 ->
  asn1.parseLongLength (length bs) acc (bs ++ rest)
  = Some (acc * 2 ^ (8 * Z.of_nat (length bs)) + big.SetBytes bs, rest).
Proof.
  induction bs as [|b bs IH]; intros acc rest Hacc Hnz Hlt.
  - cbn. rewrite SetBytes_nil. do 2 f_equal. lia.
  - cbn [length app asn1.parseLongLength]. cbn [length] in Hlt.
    rewrite SetBytes_cons in *.
    pose proof (byte.unsigned_range b) as Hb.
    pose proof (SetBytes_bound bs) as Hs.
    assert (Hp : 0 < 2 ^ (8 * Z.of_nat (length bs))) by (apply Z.pow_pos_nonneg; lia).
    assert (Hpow : 2 ^ (8 * Z.of_nat (S (length bs)))
                   = 2 ^ 8 * 2 ^ (8 * Z.of_nat (length bs))).
    { rewrite <- Z.pow_add_r by lia. f_equal. lia. }
    rewrite Hpow in *.
    change (2 ^ 8) with 256 in *. change (2 ^ 31) with 2147483648 in *.
    set (P := 2 ^ (8 * Z.of_nat (length bs))) in *.
    destruct (Z.leb_spec (2 ^ 23) acc) as [Hbig|_];
      [exfalso; change (2 ^ 23) with 8388608 in Hbig; nia|].
    rewrite Z.lor_comm, lor_shiftl_add by lia.
    change (2 ^ 8) with 256.
    destruct (Z.eqb_spec (byte.unsigned b + acc * 256) 0) as [Hz|_];
      [exfalso; destruct Hnz; lia|].
    rewrite IH.
    + do 2 f_equal. fold P. lia.
    + lia.
    + left. destruct Hnz; lia.
    + fold P. nia.
Qed.

Lemma byteLen_bound (L : Z) : 0 < L < 2 ^ 31 -> (1 <= big.byteLen L <= 4)%nat.
Proof.
  intros [Hlo Hhi]. unfold big.byteLen.
  destruct (Z.leb_spec L 0); [lia|].
  assert (Z.log2 L < 31) by (apply Z.log2_lt_pow2; lia).
  pose proof (Z.log2_nonneg L).
  assert (0 <= Z.log2 L / 8 <= 3).
  { split; [apply Z.div_pos; lia|].
    enough (Z.log2 L / 8 < 4) by lia. apply Z.div_lt_upper_bound; lia. }
  lia.
Qed.

Lemma length_Bytes (n : Z) : length (big.Bytes n) = big.byteLen (Z.abs n).
Proof. unfold big.Bytes. now rewrite length_rev, length_le_split. Qed.

Lemma appendLength_Bytes (L : Z) : 0 < L -> asn1.appendLength L = big.Bytes L.
Proof.
  intros HL. unfold asn1.appendLength, asn1.lengthLength, big.Bytes.
  rewrite Z.abs_eq by lia.
  replace (Nat.max 1 (big.byteLen L)) with (big.byteLen L); [reflexivity|].
  unfold big.byteLen. destruct (Z.leb_spec L 0); lia.
Qed.

(** A header is read back as the tag and length it was written for. *)
Lemma parseTagAndLength_append (tg : Z) (c : bool) (L : Z) (rest : list byte) :
  (tg = asn1.TagInteger /\ c = false) \/ (tg = asn1.TagSequence /\ c = true) ->
  0 <= L < 2 ^ 31 ->
  asn1.parseTagAndLength
    (asn1.appendTagAndLength asn1.ClassUniversal tg c L ++ rest)
  = Some ({| asn1.class := asn1.ClassUniversal; asn1.tag := tg;
             asn1.len := L; asn1.isCompound := c |}, rest).
Proof.
  intros Htag HL. unfold asn1.appendTagAndLength.
  set (b0 := byte.of_Z _).
  assert (Hb0 : Z.shiftr (byte.unsigned b0) 6 = asn1.ClassUniversal
                /\ (Z.land (byte.unsigned b0) 0x20 =? 0x20) = c
                /\ Z.land (byte.unsigned b0) 0x1f = tg
                /\ (tg =? 0x1f) = false).
  { destruct Htag as [[-> ->]|[-> ->]]; vm_compute; auto. }
  destruct Hb0 as (Hcls & Hc & Htg & Hne).
  cbn [app asn1.parseTagAndLength]. cbv zeta.
  rewrite Hcls, Hc, Htg, Hne.
  destruct (Z.leb_spec 128 L) as [Hlong|Hshort].
  - pose proof (byteLen_bound L ltac:(lia)) as Hk.
    cbn [app].
    assert (Hl : asn1.lengthLength L = big.byteLen L).
    { unfold asn1.lengthLength. lia. }
    rewrite Hl.
    assert (Hk' : Z.land (byte.unsigned (byte.of_Z (Z.lor 128 (Z.of_nat (big.byteLen L))))) 128 <> 0
                  /\ Z.land (byte.unsigned (byte.of_Z (Z.lor 128 (Z.of_nat (big.byteLen L))))) 127
                     = Z.of_nat (big.byteLen L)).
    { destruct (big.byteLen L) as [|[|[|[|[|k]]]]]; try lia; vm_compute; split; congruence. }
    destruct Hk' as [Hk1 Hk2].
    destruct (Z.eqb_spec (Z.land (byte.unsigned (byte.of_Z (Z.lor 128 (Z.of_nat (big.byteLen L))))) 128) 0);
      [contradiction|].
    rewrite Hk2.
    destruct (Z.eqb_spec (Z.of_nat (big.byteLen L)) 0); [lia|].
    rewrite Nat2Z.id, appendLength_Bytes by lia.
    destruct (Bytes_head L ltac:(lia)) as (b & tl & Hb & Hbnz).
    rewrite <- (Z.abs_eq L) at 1 by lia. rewrite <- length_Bytes.
    rewrite parseLongLength_app.
    + rewrite SetBytes_Bytes by lia. cbn [Z.mul Z.add].
      destruct (Z.ltb_spec L 128); [lia|]. reflexivity.
    + lia.
    + right. now rewrite Hb.
    + rewrite SetBytes_Bytes by lia. lia.
  - cbn [app].
    rewrite byte.unsigned_of_Z. unfold byte.wrap.
    rewrite Z.mod_small by lia.
    assert (Hs : Z.land L 128 = 0 /\ Z.land L 127 = L).
    { change 127 with (Z.ones 7). rewrite Z.land_ones by lia.
      split; [|apply Z.mod_small; lia].
      apply Z.bits_inj'. intros i Hi. rewrite Z.land_spec, Z.bits_0.
      destruct (Z.eq_dec i 7) as [->|Hi7].
      - rewrite <- (Z.mod_small L (2 ^ 7)) by lia.
        rewrite Z.mod_pow2_bits_high by lia. reflexivity.
      - change 128 with (2 ^ 7). rewrite Z.pow2_bits_eqb by lia.
        destruct (Z.eqb_spec 7 i); [lia|]. apply andb_false_r. }
    destruct Hs as [Hs1 Hs2]. rewrite Hs1, Hs2. reflexivity.
Qed.

Lemma appendTagAndLength_cons (cls tg : Z) (c : bool) (L : Z) :
  exists b tl, asn1.appendTagAndLength cls tg c L = b :: tl.
Proof. unfold asn1.appendTagAndLength. eauto. Qed.

(** A header followed by content of the announced length splits there. *)
Lemma parseHeader_append (tg : Z) (c : bool) (body rest : list byte) :
  (tg = asn1.TagInteger /\ c = false) \/ (tg = asn1.TagSequence /\ c = true) ->
  Z.of_nat (length body) < 2 ^ 31 ->
  asn1.parseHeader tg c
    (asn1.appendTagAndLength asn1.ClassUniversal tg c (Z.of_nat (length body))
       ++ body ++ rest)
  = Some (body, rest).
Proof.
  intros Htag Hlen. unfold asn1.parseHeader.
  rewrite parseTagAndLength_append by (try assumption; lia).
  destruct (appendTagAndLength_cons asn1.ClassUniversal tg c
              (Z.of_nat (length body))) as (b & tl & ->).
  cbn [app asn1.class asn1.tag asn1.len asn1.isCompound].
  rewrite !Z.eqb_refl, Bool.eqb_reflx. cbn [andb negb].
  rewrite length_app, Nat2Z.id.
  destruct (Z.ltb_spec (Z.of_nat (length body + length rest))
              (Z.of_nat (length body))); [lia|].
  rewrite firstn_app, firstn_all, Nat.sub_diag, firstn_O, app_nil_r.
  rewrite skipn_app, skipn_all, Nat.sub_diag, skipn_O. reflexivity.
Qed.

Lemma parseHeader_exact (tg : Z) (c : bool) (body : list byte) :
  (tg = asn1.TagInteger /\ c = false) \/ (tg = asn1.TagSequence /\ c = true) ->
  Z.of_nat (length body) < 2 ^ 31 ->
  asn1.parseHeader tg c
    (asn1.appendTagAndLength asn1.ClassUniversal tg c (Z.of_nat (length body))
       ++ body)
  = Some (body, []).
Proof.
  intros Htag Hlen.
  pose proof (parseHeader_append tg c body [] Htag Hlen) as H.
  now rewrite app_nil_r in H.
Qed.

Lemma makeField_some (n : Z) :
  exists body, asn1.makeBigInt (Some n) = (body, None)
    /\ asn1.makeField (Some n)
       = (asn1.appendTagAndLength asn1.ClassUniversal asn1.TagInteger false
            (Z.of_nat (length body)) ++ body, None).
Proof.
  destruct (makeBigInt_some n) as (b & tl & H).
  exists (b :: tl). split; [assumption|].
  unfold asn1.makeField. now rewrite H.
Qed.

Lemma parseField_makeField (n : Z) (rest : list byte) :
  Z.of_nat (length (fst (asn1.makeField (Some n)))) < 2 ^ 31 ->
  asn1.parseField (fst (asn1.makeField (Some n)) ++ rest) = Some (n, rest).
Proof.
  destruct (makeField_some n) as (body & Hb & ->). cbn [fst].
  rewrite length_app. intros Hlen.
  unfold asn1.parseField. rewrite <- app_assoc.
  rewrite parseHeader_append by (auto; lia).
  pose proof (parseBigInt_makeBigInt n) as Hp. rewrite Hb in Hp. cbn [fst] in Hp.
  now rewrite Hp.
Qed.

Lemma Marshal_some (r s : Z) :
  asn1.Marshal (ecdsaSignature.mk (Some r) (Some s))
  = (asn1.appendTagAndLength asn1.ClassUniversal asn1.TagSequence true
       (Z.of_nat (length (fst (asn1.makeField (Some r))
                          ++ fst (asn1.makeField (Some s)))))
       ++ fst (asn1.makeField (Some r)) ++ fst (asn1.makeField (Some s)),
     None).
Proof.
  unfold asn1.Marshal. cbn [ecdsaSignature.R ecdsaSignature.S].
  destruct (makeField_some r) as (br & _ & ->).
  destruct (makeField_some s) as (bs & _ & ->).
  reflexivity.
Qed.

(** A marshalled value is never the empty slice. *)
Lemma Marshal_nonempty (v : ecdsaSignature.t) (sig : list byte) :
  asn1.Marshal v = (sig, None) -> sig <> [].
Proof.
  unfold asn1.Marshal.
  destruct (asn1.makeField (ecdsaSignature.R v)) as [fr [e|]]; [discriminate|].
  destruct (asn1.makeField (ecdsaSignature.S v)) as [fs [e|]]; [discriminate|].
  intros H. apply (f_equal fst) in H. cbn [fst] in H. cbv zeta in H. subst sig.
  destruct (appendTagAndLength_cons asn1.ClassUniversal asn1.TagSequence true
              (Z.of_nat (length (fr ++ fs)))) as (b & tl & ->).
  discriminate.
Qed.

(** A nil field makes marshalling fail. *)
Lemma Marshal_nil (r s : big_Int) :
  r = None \/ s = None ->
  asn1.Marshal (ecdsaSignature.mk r s) = ([], Some asn1.Error).
Proof.
  intros H. unfold asn1.Marshal. cbn [ecdsaSignature.R ecdsaSignature.S].
  destruct r as [r|]; [|reflexivity].
  destruct H as [H| ->]; [discriminate|].
  destruct (makeField_some r) as (br & _ & ->). reflexivity.
Qed.

(** Encoding then decoding gives the pair back, with nothing left over. *)
Lemma Unmarshal_Marshal (r s : Z) :
  Z.of_nat (length (fst (asn1.Marshal (ecdsaSignature.mk (Some r) (Some s)))))
    < 2 ^ 31 ->
  asn1.Unmarshal (fst (asn1.Marshal (ecdsaSignature.mk (Some r) (Some s))))
  = (ecdsaSignature.mk (Some r) (Some s), [], None).
Proof.
  rewrite Marshal_some. cbn [fst].
  set (fr := fst (asn1.makeField (Some r))).
  set (fs := fst (asn1.makeField (Some s))).
  intros Hlen. rewrite !length_app in Hlen.
  unfold asn1.Unmarshal.
  rewrite parseHeader_exact by (auto; rewrite length_app; lia).
  unfold fr at 1. rewrite parseField_makeField by (fold fr; lia).
  pose proof (parseField_makeField s []) as Hs. rewrite app_nil_r in Hs.
  fold fs in Hs. rewrite Hs by lia.
  reflexivity.
Qed.

(** *** Decoding then encoding *)

(** A slice with a non-zero first byte is the magnitude of its value. *)
Lemma Bytes_SetBytes (b : byte) (tl : list byte) :
  byte.unsigned b <> 0 -> big.Bytes (big.SetBytes (b :: tl)) = b :: tl.
Proof.
  intros Hb.
  pose proof (SetBytes_bound (b :: tl)) as Hbound.
  pose proof (SetBytes_bound tl) as Htl.
  pose proof (byte.unsigned_range b) as Hr.
  rewrite SetBytes_cons in *. cbn [length] in Hbound.
  set (k := Z.of_nat (length tl)) in *.
  set (v := byte.unsigned b * 2 ^ (8 * k) + big.SetBytes tl) in *.
  assert (Hk : 0 <= k) by (unfold k; lia).
  assert (Hp : 0 < 2 ^ (8 * k)) by (apply Z.pow_pos_nonneg; lia).
  assert (Hlo : 2 ^ (8 * k) <= v) by (unfold v; nia).
  assert (Hv : 0 < v) by lia.
  assert (Hlog : Z.log2 v / 8 = k).
  { pose proof (Z.log2_spec v Hv) as [Hl1 Hl2].
    assert (8 * k <= Z.log2 v) by (apply Z.log2_le_pow2; lia).
    assert (Z.log2 v < 8 * (k + 1)).
    { apply Z.log2_lt_pow2; [lia|].
      replace (8 * (k + 1)) with (8 * Z.of_nat (S (length tl))) by (unfold k; lia).
      exact (proj2 Hbound). }
    symmetry. apply Z.div_unique with (r := Z.log2 v - 8 * k); lia. }
  unfold big.Bytes, big.byteLen. rewrite Z.abs_eq by lia.
  destruct (Z.leb_spec v 0); [lia|].
  rewrite Hlog. unfold k. rewrite Nat2Z.id.
  replace (S (length tl)) with (length (rev (b :: tl)))
    by (rewrite length_rev; reflexivity).
  unfold v, k. rewrite <- SetBytes_cons. unfold big.SetBytes.
  rewrite split_le_combine. apply rev_involutive.
Qed.

Lemma Bytes_0 : big.Bytes 0 = [].
Proof. reflexivity. Qed.

Lemma SetBytes_pos (b : byte) (tl : list byte) :
  byte.unsigned b <> 0 -> 0 < big.SetBytes (b :: tl).
Proof.
  intros Hb. rewrite SetBytes_cons.
  pose proof (SetBytes_bound tl). pose proof (byte.unsigned_range b).
  assert (0 < 2 ^ (8 * Z.of_nat (length tl))) by (apply Z.pow_pos_nonneg; lia).
  nia.
Qed.

Lemma highBit_complement (b : byte) :
  asn1.highBit (asn1.complement b) = negb (asn1.highBit b).
Proof. destruct b; vm_compute; reflexivity. Qed.

(** An INTEGER body the decoder accepts is the body the encoder makes for
    the integer decoded. *)
Lemma makeBigInt_parseBigInt (bytes : list byte) (v : Z) :
  asn1.parseBigInt bytes = Some v -> asn1.makeBigInt (Some v) = (bytes, None).
Proof.
  unfold asn1.parseBigInt.
  destruct (asn1.checkInteger bytes) eqn:Hchk; [|discriminate].
  destruct bytes as [|b tl]; [discriminate|].
  pose proof (byte.unsigned_range b) as Hr.
  pose proof (unsigned_complement b) as Hcb.
  destruct (asn1.highBit b) eqn:Hh; intros Hv; injection Hv as <-.
  - (* negative *)
    cbn [map]. unfold asn1.makeBigInt.
    set (c := asn1.complement b :: map asn1.complement tl).
    pose proof (SetBytes_bound c) as Hc.
    destruct (Z.ltb_spec (- (big.SetBytes c + 1)) 0); [|lia].
    replace (- - (big.SetBytes c + 1) - 1) with (big.SetBytes c) by lia.
    destruct (Z.eq_dec (byte.unsigned (asn1.complement b)) 0) as [Hz|Hnz].
    + (* the first byte is 0xff *)
      assert (Hb : b = Byte.xff).
      { apply byte.unsigned_inj. change (byte.unsigned Byte.xff) with 255. lia. }
      subst b. unfold c. change (asn1.complement Byte.xff) with Byte.x00.
      rewrite SetBytes_x00.
      destruct tl as [|b1 tl]; [reflexivity|].
      cbn [asn1.checkInteger] in Hchk.
      change (byte.unsigned Byte.xff =? 0) with false in Hchk.
      change (byte.unsigned Byte.xff =? 255) with true in Hchk.
      cbn [andb orb negb] in Hchk. apply negb_true_iff in Hchk.
      cbn [map].
      assert (Hb1 : byte.unsigned (asn1.complement b1) <> 0).
      { rewrite highBit_spec in Hchk. apply Z.leb_gt in Hchk.
        rewrite unsigned_complement. lia. }
      rewrite Bytes_SetBytes by assumption.
      cbn [map]. rewrite complement_involutive, map_complement_involutive.
      now rewrite Hchk.
    + unfold c. rewrite Bytes_SetBytes by assumption.
      cbn [map]. rewrite complement_involutive, map_complement_involutive.
      now rewrite Hh.
  - (* not negative *)
    unfold asn1.makeBigInt.
    pose proof (SetBytes_bound (b :: tl)) as Hbound.
    destruct (Z.ltb_spec (big.SetBytes (b :: tl)) 0); [lia|].
    destruct (Z.eq_dec (byte.unsigned b) 0) as [Hz|Hnz].
    + assert (Hb : b = Byte.x00).
      { apply byte.unsigned_inj. exact Hz. }
      subst b. rewrite SetBytes_x00.
      destruct tl as [|b1 tl]; [reflexivity|].
      cbn [asn1.checkInteger] in Hchk.
      change (byte.unsigned Byte.x00 =? 0) with true in Hchk.
      change (byte.unsigned Byte.x00 =? 255) with false in Hchk.
      cbn [andb orb negb] in Hchk. rewrite orb_false_r in Hchk.
      apply negb_true_iff, negb_false_iff in Hchk.
      assert (Hb1 : byte.unsigned b1 <> 0).
      { rewrite highBit_spec in Hchk. apply Z.leb_le in Hchk. lia. }
      pose proof (SetBytes_pos b1 tl Hb1).
      destruct (Z.eqb_spec (big.SetBytes (b1 :: tl)) 0); [lia|].
      rewrite Bytes_SetBytes by assumption. now rewrite Hchk.
    + pose proof (SetBytes_pos b tl Hnz).
      destruct (Z.eqb_spec (big.SetBytes (b :: tl)) 0); [lia|].
      rewrite Bytes_SetBytes by assumption. now rewrite Hh.
Qed.

Lemma parseLongLength_inv (n : nat) : forall acc bytes L rest,
  asn1.parseLongLength n acc bytes = Some (L, rest) ->
  0 <= acc ->
  exists bs,
    bytes = bs ++ rest /\ length bs = n
    /\ L = acc * 2 ^ (8 * Z.of_nat n) + big.SetBytes bs
    /\ (acc = 0 -> match bs with b :: _ => byte.unsigned b <> 0 | [] => True end).
Proof.
  induction n as [|n IH]; intros acc bytes L rest H Hacc.
  - cbn in H. injection H as <- <-. exists []. cbn [app length].
    rewrite SetBytes_nil. repeat split; auto. cbn. lia.
  - cbn [asn1.parseLongLength] in H.
    destruct bytes as [|b bytes]; [discriminate|].
    destruct (Z.leb_spec (2 ^ 23) acc); [discriminate|].
    pose proof (byte.unsigned_range b) as Hb.
    rewrite Z.lor_comm, lor_shiftl_add in H by lia.
    change (2 ^ 8) with 256 in *.
    destruct (Z.eqb_spec (byte.unsigned b + acc * 256) 0) as [|Hnz];
      [discriminate|].
    destruct (IH _ _ _ _ H ltac:(lia)) as (bs & -> & Hlen & -> & _).
    exists (b :: bs). cbn [app length]. rewrite Hlen, SetBytes_cons, Hlen.
    repeat split; auto.
    + replace (8 * Z.of_nat (S n)) with (8 + 8 * Z.of_nat n) by lia.
      rewrite Z.pow_add_r by lia. change (2 ^ 8) with 256. lia.
    + intros ->. lia.
Qed.

Lemma tag_octet (b0 : byte) :
  let u := byte.unsigned b0 in
  (Z.land u 0x1f =? 0x1f) = false ->
  byte.of_Z (Z.lor (Z.lor (Z.shiftl (Z.shiftr u 6) 6)
                      (if Z.land u 0x20 =? 0x20 then 0x20 else 0))
               (Z.land u 0x1f)) = b0.
Proof. destruct b0; vm_compute; intros H; first [reflexivity|discriminate H]. Qed.

Lemma short_length_octet (l : byte) :
  let u := byte.unsigned l in
  Z.land u 0x80 = 0 ->
  (128 <=? Z.land u 0x7f) = false /\ byte.of_Z (Z.land u 0x7f) = l.
Proof.
  destruct l; vm_compute; intros H; first [split; reflexivity|discriminate H].
Qed.

Lemma long_length_octet (l : byte) :
  let u := byte.unsigned l in
  Z.land u 0x80 <> 0 ->
  0 <= Z.land u 0x7f /\ byte.of_Z (Z.lor 0x80 (Z.land u 0x7f)) = l.
Proof.
  destruct l; vm_compute; intros H;
    first [split; [discriminate|reflexivity]|now contradiction H].
Qed.

(** Identifier and length octets the decoder accepts are the ones the
    encoder writes for the tag and length decoded. *)
Lemma parseTagAndLength_inv (bytes rest : list byte) (t : asn1.tagAndLength) :
  asn1.parseTagAndLength bytes = Some (t, rest) ->
  0 <= asn1.len t
  /\ bytes = asn1.appendTagAndLength (asn1.class t) (asn1.tag t)
               (asn1.isCompound t) (asn1.len t) ++ rest.
Proof.
  unfold asn1.parseTagAndLength.
  destruct bytes as [|b0 bytes1]; [discriminate|]. cbv zeta.
  destruct (Z.land (byte.unsigned b0) 31 =? 31) eqn:Htag; [discriminate|].
  pose proof (tag_octet b0 Htag) as Hb0.
  destruct bytes1 as [|l bytes2]; [discriminate|].
  destruct (Z.eqb_spec (Z.land (byte.unsigned l) 128) 0) as [Hshort|Hlong].
  - intros Heq. injection Heq as <- <-.
    destruct (short_length_octet l Hshort) as [Hlt Hl].
    cbn [asn1.class asn1.tag asn1.len asn1.isCompound].
    split.
    { apply Z.land_nonneg. right. lia. }
    unfold asn1.appendTagAndLength. rewrite Hb0, Hlt, Hl. reflexivity.
  - destruct (long_length_octet l Hlong) as [Hn Hl].
    destruct (Z.eqb_spec (Z.land (byte.unsigned l) 127) 0) as [|Hn0];
      [discriminate|].
    destruct (asn1.parseLongLength _ 0 bytes2) as [[L bytes3]|] eqn:Hp;
      [|discriminate].
    destruct (Z.ltb_spec L 128) as [|HL]; [discriminate|].
    intros Heq. injection Heq as <- <-.
    cbn [asn1.class asn1.tag asn1.len asn1.isCompound].
    destruct (parseLongLength_inv _ _ _ _ _ Hp ltac:(lia))
      as (bs & -> & Hlen & HLv & Hhead).
    cbn [Z.mul] in HLv. rewrite Z.add_0_l in HLv.
    split; [lia|].
    destruct bs as [|hb tb].
    { cbn in Hlen. lia. }
    specialize (Hhead eq_refl).
    assert (HB : big.Bytes L = hb :: tb) by (subst L; now apply Bytes_SetBytes).
    assert (Hll : asn1.lengthLength L = length (hb :: tb)).
    { unfold asn1.lengthLength. rewrite <- HB, length_Bytes, Z.abs_eq by lia.
      unfold big.byteLen. destruct (Z.leb_spec L 0); lia. }
    unfold asn1.appendTagAndLength. rewrite Hb0.
    destruct (Z.leb_spec 128 L); [|lia].
    rewrite appendLength_Bytes, HB by lia.
    rewrite Hll, Hlen, Z2Nat.id, Hl by lia.
    reflexivity.
Qed.

(** A header the decoder accepts is the encoder's header for the content
    it delimits. *)
Lemma parseHeader_inv (tg : Z) (c : bool) (bytes inner rest : list byte) :
  asn1.parseHeader tg c bytes = Some (inner, rest) ->
  bytes = asn1.appendTagAndLength asn1.ClassUniversal tg c
            (Z.of_nat (length inner)) ++ inner ++ rest.
Proof.
  unfold asn1.parseHeader.
  destruct bytes as [|b bytes]; [discriminate|].
  destruct (asn1.parseTagAndLength (b :: bytes)) as [[t rest0]|] eqn:Hp;
    [|discriminate].
  destruct (parseTagAndLength_inv _ _ _ Hp) as [Hlen ->].
  destruct (Z.eqb_spec (asn1.class t) asn1.ClassUniversal) as [Hc|];
    [|discriminate].
  destruct (Z.eqb_spec (asn1.tag t) tg) as [Ht|]; [|discriminate].
  destruct (Bool.eqb (asn1.isCompound t) c) eqn:Hcomp; [|discriminate].
  apply Bool.eqb_prop in Hcomp. cbn [andb negb].
  destruct (Z.ltb_spec (Z.of_nat (length rest0)) (asn1.len t)); [discriminate|].
  intros Heq. injection Heq as <- <-.
  rewrite length_firstn, Nat.min_l by lia.
  rewrite Z2Nat.id, firstn_skipn by lia.
  now rewrite Hc, Ht, Hcomp.
Qed.

Lemma parseField_inv (bytes rest : list byte) (v : Z) :
  asn1.parseField bytes = Some (v, rest) ->
  bytes = fst (asn1.makeField (Some v)) ++ rest.
Proof.
  unfold asn1.parseField.
  destruct (asn1.parseHeader _ _ bytes) as [[inner rest0]|] eqn:Hh;
    [|discriminate].
  destruct (asn1.parseBigInt inner) as [v0|] eqn:Hv; [|discriminate].
  intros Heq. injection Heq as <- <-.
  apply parseHeader_inv in Hh. apply makeBigInt_parseBigInt in Hv.
  unfold asn1.makeField. rewrite Hv. cbn [fst].
  now rewrite <- app_assoc.
Qed.

(** What the decoder accepts: the encoding of the pair it returns, with
    any bytes after the second INTEGER inside the SEQUENCE and any bytes
    after the SEQUENCE. *)
Lemma Unmarshal_inv (b rest : list byte) (R S : Z) :
  asn1.Unmarshal b = (ecdsaSignature.mk (Some R) (Some S), rest, None) ->
  exists extra,
    let body := fst (asn1.makeField (Some R))
                ++ fst (asn1.makeField (Some S)) ++ extra in
    b = asn1.appendTagAndLength asn1.ClassUniversal asn1.TagSequence true
          (Z.of_nat (length body)) ++ body ++ rest.
Proof.
  unfold asn1.Unmarshal.
  destruct (asn1.parseHeader _ _ b) as [[inner rest0]|] eqn:Hh; [|discriminate].
  destruct (asn1.parseField inner) as [[r inner1]|] eqn:Hr; [|discriminate].
  destruct (asn1.parseField inner1) as [[s extra]|] eqn:Hs; [|discriminate].
  intros Heq. injection Heq as <- <- <-.
  apply parseHeader_inv in Hh. apply parseField_inv in Hr, Hs.
  exists extra. cbv zeta. now rewrite <- Hs, <- Hr.
Qed.

Lemma byteLen_mono (a b : Z) : a <= b -> (big.byteLen a <= big.byteLen b)%nat.
Proof.
  intros Hab. unfold big.byteLen.
  destruct (Z.leb_spec a 0), (Z.leb_spec b 0); try lia.
  pose proof (Z.log2_le_mono a b Hab).
  pose proof (Z.log2_nonneg a).
  assert (Z.log2 a / 8 <= Z.log2 b / 8) by (apply Z.div_le_mono; lia).
  assert (0 <= Z.log2 a / 8) by (apply Z.div_pos; lia).
  lia.
Qed.

Lemma length_appendTagAndLength (cls tg : Z) (c : bool) (L : Z) :
  length (asn1.appendTagAndLength cls tg c L)
  = if 128 <=? L then (2 + asn1.lengthLength L)%nat else 2%nat.
Proof.
  unfold asn1.appendTagAndLength, asn1.appendLength.
  destruct (128 <=? L); cbn [length]; [|reflexivity].
  now rewrite length_rev, length_le_split.
Qed.

Lemma length_appendTagAndLength_mono (cls tg : Z) (c : bool) (L L' : Z) :
  L <= L' ->
  (length (asn1.appendTagAndLength cls tg c L)
   <= length (asn1.appendTagAndLength cls tg c L'))%nat.
Proof.
  intros HL. rewrite !length_appendTagAndLength.
  destruct (Z.leb_spec 128 L), (Z.leb_spec 128 L'); try lia.
  unfold asn1.lengthLength. pose proof (byteLen_mono L L' HL). lia.
Qed.

(** Decoding then encoding: a slice the decoder accepts and that is no
    longer than the encoding of the pair decoded is that encoding. *)
Lemma Marshal_Unmarshal (b rest : list byte) (R S : Z) :
  asn1.Unmarshal b = (ecdsaSignature.mk (Some R) (Some S), rest, None) ->
  (length b <= length (fst (asn1.Marshal (ecdsaSignature.mk (Some R) (Some S)))))%nat ->
  asn1.Marshal (ecdsaSignature.mk (Some R) (Some S)) = (b, None) /\ rest = [].
Proof.
  intros Hdec Hlen.
  destruct (Unmarshal_inv _ _ _ _ Hdec) as (extra & Hb). cbv zeta in Hb.
  rewrite Marshal_some in *. cbn [fst] in Hlen.
  set (fr := fst (asn1.makeField (Some R))) in *.
  set (fs := fst (asn1.makeField (Some S))) in *.
  pose proof (length_appendTagAndLength_mono asn1.ClassUniversal
                asn1.TagSequence true
                (Z.of_nat (length (fr ++ fs)))
                (Z.of_nat (length (fr ++ fs ++ extra)))) as Hmono.
  rewrite Hb in Hlen. rewrite !length_app in Hlen, Hmono.
  specialize (Hmono ltac:(lia)).
  assert (He : length extra = 0%nat) by (rewrite !length_app in Hlen; lia).
  assert (Hr : length rest = 0%nat) by (rewrite !length_app in Hlen; lia).
  apply length_zero_iff_nil in He, Hr. subst extra rest.
  split; [|reflexivity].
  rewrite Hb, !app_nil_r. reflexivity.
Qed.

(** The DER signatures of less than 2^31 bytes are the slices the decoder
    accepts whole and that are no longer than the encoding of what it
    decoded. *)
Lemma DER_signature_decoded (sig : list byte) :
  Z.of_nat (length sig) < 2 ^ 31 ->
  DER_signature sig <->
  exists R S,
    asn1.Unmarshal sig = (ecdsaSignature.mk (Some R) (Some S), [], None)
    /\ (length sig
        <= length (fst (asn1.Marshal (ecdsaSignature.mk (Some R) (Some S)))))%nat.
Proof.
  intros Hlen. split.
  - intros (r & s & H). exists r, s.
    pose proof (Unmarshal_Marshal r s) as Hrt. rewrite H in *. cbn [fst] in *.
    split; [apply Hrt; assumption|lia].
  - intros (R & S & Hdec & Hle). exists R, S.
    apply (Marshal_Unmarshal _ _ _ _ Hdec Hle).
Qed.

(* ===================================================================== *)
(** ** Properties of [ecdsa.go]                                           *)
(* ===================================================================== *)

Section Properties.

Context {engine : Type} {openssl : OpenSSL engine}.

(** *** Curve registry *)

Lemma curveNID_unknown (curve : string) :
  ~ In curve supported -> curveNID curve = (0, Some errUnknownCurve).
Proof.
  intros H. unfold curveNID, supported in *. cbn [In] in H.
  repeat match goal with
  | |- context [String.eqb ?a ?b] =>
      destruct (String.eqb_spec a b); [exfalso; subst; tauto|]
  end.
  reflexivity.
Qed.

Lemma curveNID_supported (curve : string) :
  snd (curveNID curve) = None <-> In curve supported.
Proof.
  unfold curveNID, supported. cbn [In].
  repeat match goal with
  | |- context [String.eqb ?a ?b] =>
      destruct (String.eqb_spec a b); [subst; cbn [snd]; tauto|]
  end.
  cbn [snd]. split; [discriminate|]. intros Hin. exfalso.
  intuition congruence.
Qed.

(** C2.  [curveNID] answers the four names of the registry with the
    engine's identifier of the curve and no error; on every other string
    it answers [errUnknownCurve], and the functions that start by
    resolving the curve then return that error in an untouched world: no
    native call was made, nothing was allocated. *)
Theorem curveNID_exact :
  curveNID "P-224" = (NID_secp224r1, None)
  /\ curveNID "P-256" = (NID_X9_62_prime256v1, None)
  /\ curveNID "P-384" = (NID_secp384r1, None)
  /\ curveNID "P-521" = (NID_secp521r1, None)
  /\ (forall curve, snd (curveNID curve) = None <-> In curve supported)
  /\ (forall curve, ~ In curve supported ->
        curveNID curve = (0, Some errUnknownCurve)
        /\ (forall X Y (w : World engine),
              newECKey curve X Y w = (Returns (nil, Some errUnknownCurve), w))
        /\ (forall X Y (w : World engine),
              NewPublicKeyECDSA curve X Y w
              = (Returns (None, Some errUnknownCurve), w))
        /\ (forall X Y D (w : World engine),
              NewPrivateKeyECDSA curve X Y D w
              = (Returns (None, Some errUnknownCurve), w))
        /\ (forall w : World engine,
              GenerateKeyECDSA curve w
              = (Returns (None, None, None, Some errUnknownCurve), w))).
Proof.
  repeat split; try reflexivity; try apply curveNID_supported.
  - now apply curveNID_unknown.
  - intros. unfold newECKey. now rewrite curveNID_unknown.
  - intros. unfold NewPublicKeyECDSA, bind, newECKey.
    now rewrite curveNID_unknown.
  - intros. unfold NewPrivateKeyECDSA, bind, newECKey.
    now rewrite curveNID_unknown.
  - intros. unfold GenerateKeyECDSA. now rewrite curveNID_unknown.
Qed.

(** *** Verification *)

(** What [VerifyECDSA] does once the pair is marshalled. *)
Lemma VerifyECDSA_run (pub : PublicKeyECDSA.t) (hash : list byte)
    (r s : big_Int) (w : World engine) :
  VerifyECDSA pub hash r s w =
  match asn1.Marshal (ecdsaSignature.mk r s) with
  | (_, Some _) => (Returns false, w)
  | (sig, None) =>
      let key := PublicKeyECDSA.key pub in
      let (v, e) := ECDSA_verify 0 hash sig key (eng w) in
      (Returns (0 <? C_int v),
       mkWorld e (live w)
         (log w ++ [Call fn_ECDSA_verify (C_int v); KeepAlive key])
         (finalizers w))
  end.
Proof.
  unfold VerifyECDSA.
  destruct (asn1.Marshal _) as [sig [e|]] eqn:Hm; [reflexivity|].
  pose proof (Marshal_nonempty _ _ Hm) as Hne.
  destruct sig as [|b sig]; [contradiction|].
  unfold bind, index0, ret, go_openssl_ECDSA_verify, native_int,
    runtime_KeepAlive, with_eng.
  destruct (ECDSA_verify _ _ _ _ _) as [v e]. cbn [eng live log finalizers].
  now rewrite <- app_assoc.
Qed.

(** C1.  [VerifyECDSA] always returns a boolean, it never panics and has
    no error result.  When marshalling (R, S) fails the boolean is false
    and the engine is not called; otherwise the engine's verify primitive
    is called once on the marshalled pair and the boolean is true exactly
    when its [int] result is positive. *)
Theorem VerifyECDSA_bool (pub : PublicKeyECDSA.t) (hash : list byte)
    (r s : big_Int) (w : World engine) :
  exists (b : bool) (w' : World engine),
    VerifyECDSA pub hash r s w = (Returns b, w')
    /\ match asn1.Marshal (ecdsaSignature.mk r s) with
       | (_, Some _) => b = false /\ w' = w
       | (sig, None) =>
           exists v e,
             ECDSA_verify 0 hash sig (PublicKeyECDSA.key pub) (eng w) = (v, e)
             /\ (b = true <-> 0 < C_int v)
             /\ (C_int v <= 0 -> b = false)
             /\ eng w' = e
             /\ since w w' = [Call fn_ECDSA_verify (C_int v);
                              KeepAlive (PublicKeyECDSA.key pub)]
       end.
Proof.
  rewrite VerifyECDSA_run.
  destruct (asn1.Marshal _) as [sig [e|]]; [eauto|].
  cbv zeta. destruct (ECDSA_verify _ _ _ _ _) as [v e] eqn:Hv.
  do 2 eexists. split; [reflexivity|].
  exists v, e. repeat split.
  - apply Z.ltb_lt.
  - apply Z.ltb_lt.
  - apply Z.ltb_ge.
  - unfold since. cbn [log]. now rewrite skipn_app, skipn_all, Nat.sub_diag.
Qed.

(** C9.  A pair the codec cannot marshal makes [VerifyECDSA] return false
    in an untouched world; a nil R or a nil S is such a pair.  A pair of
    integers of any sign is marshalled, and the marshalled bytes are what
    the engine's verify primitive receives. *)
Theorem VerifyECDSA_nil_and_negative (pub : PublicKeyECDSA.t)
    (hash : list byte) (w : World engine) :
  (forall r s, snd (asn1.Marshal (ecdsaSignature.mk r s)) <> None ->
     VerifyECDSA pub hash r s w = (Returns false, w))
  /\ (forall s, VerifyECDSA pub hash None s w = (Returns false, w))
  /\ (forall r, VerifyECDSA pub hash r None w = (Returns false, w))
  /\ (forall r s : Z,
        exists sig v e,
          asn1.Marshal (ecdsaSignature.mk (Some r) (Some s)) = (sig, None)
          /\ ECDSA_verify 0 hash sig (PublicKeyECDSA.key pub) (eng w) = (v, e)
          /\ VerifyECDSA pub hash (Some r) (Some s) w
             = (Returns (0 <? C_int v),
                mkWorld e (live w)
                  (log w ++ [Call fn_ECDSA_verify (C_int v);
                             KeepAlive (PublicKeyECDSA.key pub)])
                  (finalizers w))).
Proof.
  split; [|split; [|split]].
  - intros r s H. rewrite VerifyECDSA_run.
    destruct (asn1.Marshal _) as [sig [e|]]; [reflexivity|].
    now contradiction H.
  - intros s. rewrite VerifyECDSA_run, Marshal_nil; auto.
  - intros r. rewrite VerifyECDSA_run, Marshal_nil; auto.
  - intros r s. rewrite VerifyECDSA_run, Marshal_some. cbv zeta.
    destruct (ECDSA_verify _ _ _ _ _) as [v e] eqn:Hv.
    do 3 eexists. split; [reflexivity|]. split; [exact Hv|reflexivity].
Qed.

(** *** Signing *)

Lemma length_written (buf out : list byte) :
  length (written buf out) = length buf.
Proof.
  unfold written. rewrite length_firstn, length_app, length_skipn. lia.
Qed.

Lemma C_int_range (z : Z) : - 2 ^ 31 <= C_int z < 2 ^ 31.
Proof.
  unfold C_int. pose proof (Z.mod_pos_bound (z + 2 ^ 31) (2 ^ 32) eq_refl).
  change (2 ^ 32) with (2 * 2 ^ 31) in *. lia.
Qed.

Lemma C_uint_range (z : Z) : 0 <= C_uint z < 2 ^ 32.
Proof. unfold C_uint. apply Z.mod_pos_bound. reflexivity. Qed.

Lemma since_app (w w' : World engine) (evs : list event) :
  log w' = log w ++ evs -> since w w' = evs.
Proof.
  intros H. unfold since. now rewrite H, skipn_app, skipn_all, Nat.sub_diag.
Qed.

(** [SignMarshalECDSA], call by call. *)
Lemma SignMarshalECDSA_run (priv : PrivateKeyECDSA.t) (hash : list byte)
    (w : World engine) :
  SignMarshalECDSA priv hash w =
  let key := PrivateKeyECDSA.key priv in
  let (size0, e1) := ECDSA_size key (eng w) in
  let size := C_int size0 in
  let w1 := with_eng w e1 (Call fn_ECDSA_size size) in
  if size <? 0 then (Panics "makeslice: len out of range", w1)
  else
    let buf := repeat Byte.x00 (Z.to_nat size) in
    match buf with
    | [] => (Panics "index out of range [0] with length 0", w1)
    | _ :: _ =>
        let '(r, out, n, e2) := ECDSA_sign 0 hash (length buf) key e1 in
        let w2 := with_eng w1 e2 (Call fn_ECDSA_sign (C_int r)) in
        if C_int r =? 0 then
          let (d, e3) := diagnostics e2 in
          (Returns ([], Some (OpenSSLError "ECDSA_sign failed" d)),
           with_eng w2 e3 (Raised "ECDSA_sign failed"))
        else
          let w3 := with_eng w2 e2 (KeepAlive key) in
          if Z.of_nat (length (written buf out)) <? C_uint n
          then (Panics "slice bounds out of range", w3)
          else (Returns (firstn (Z.to_nat (C_uint n)) (written buf out), None),
                w3)
    end.
Proof.
  unfold SignMarshalECDSA, bind, go_openssl_ECDSA_size, native_int.
  destruct (ECDSA_size _ _) as [size0 e1]. cbv zeta.
  unfold make_bytes.
  destruct (C_int size0 <? 0); [reflexivity|].
  unfold ret at 1.
  destruct (repeat Byte.x00 (Z.to_nat (C_int size0))) as [|b0 buf] eqn:Hbuf;
    [reflexivity|].
  unfold index0, ret at 1, go_openssl_ECDSA_sign.
  cbn [eng with_eng].
  destruct (ECDSA_sign _ _ _ _ _) as [[[r out] n] e2].
  destruct (C_int r =? 0).
  - unfold newOpenSSLError. cbn [eng with_eng].
    destruct (diagnostics e2) as [d e3]. reflexivity.
  - unfold runtime_KeepAlive, slice_to. cbn [eng with_eng].
    destruct (_ <? C_uint n); reflexivity.
Qed.

(** What a successful [SignMarshalECDSA] went through. *)
Lemma SignMarshalECDSA_inv (priv : PrivateKeyECDSA.t)
    (hash sig : list byte) (w w' : World engine) :
  SignMarshalECDSA priv hash w = (Returns (sig, None), w') ->
  let key := PrivateKeyECDSA.key priv in
  exists size e1 r out n e2,
    ECDSA_size key (eng w) = (size, e1)
    /\ 0 < C_int size
    /\ ECDSA_sign 0 hash (Z.to_nat (C_int size)) key e1 = (r, out, n, e2)
    /\ C_int r <> 0
    /\ sig = firstn (Z.to_nat (C_uint n))
               (written (repeat Byte.x00 (Z.to_nat (C_int size))) out)
    /\ Z.of_nat (length sig) = C_uint n
    /\ Z.of_nat (length sig) <= C_int size
    /\ since w w' = [Call fn_ECDSA_size (C_int size);
                     Call fn_ECDSA_sign (C_int r); KeepAlive key].
Proof.
  rewrite SignMarshalECDSA_run. cbv zeta.
  destruct (ECDSA_size _ _) as [size e1] eqn:Hsz.
  destruct (Z.ltb_spec (C_int size) 0) as [|Hsize]; [discriminate|].
  destruct (repeat Byte.x00 (Z.to_nat (C_int size))) as [|b0 buf] eqn:Hbuf;
    [discriminate|].
  assert (Hlen : length (b0 :: buf) = Z.to_nat (C_int size))
    by (rewrite <- Hbuf; apply repeat_length).
  rewrite Hlen.
  destruct (ECDSA_sign _ _ _ _ _) as [[[r out] n] e2] eqn:Hsign.
  destruct (Z.eqb_spec (C_int r) 0) as [|Hr].
  { destruct (diagnostics e2); discriminate. }
  rewrite length_written, Hlen.
  destruct (Z.ltb_spec (Z.of_nat (Z.to_nat (C_int size))) (C_uint n)) as [|Hn];
    [discriminate|].
  intros H. injection H as <- <-.
  pose proof (C_uint_range n) as Hu.
  assert (Hpos : 0 < C_int size).
  { destruct (Z.eq_dec (C_int size) 0) as [E|]; [|lia].
    rewrite E in Hlen. discriminate. }
  assert (Hout : Z.of_nat (length (firstn (Z.to_nat (C_uint n))
                     (written (b0 :: buf) out))) = C_uint n).
  { rewrite length_firstn, length_written, Hlen. lia. }
  exists size, e1, r, out, n, e2.
  split; [reflexivity|]. split; [assumption|]. split; [assumption|].
  split; [assumption|]. split; [now rewrite Hbuf|]. split; [assumption|].
  split; [lia|].
  apply since_app. cbn [with_eng log]. now rewrite <- !app_assoc.
Qed.

(** C5.  A DER signature returned by [SignMarshalECDSA] comes from these
    calls, in this order: the engine is asked the maximum signature size
    of the key, a buffer of exactly that many bytes is made, the sign
    primitive runs on the digest with that buffer, and the result is the
    buffer cut at the length the primitive reported.  The bytes returned
    are as many as that reported length and never more than the maximum
    size. *)
Theorem SignMarshalECDSA_truncates (priv : PrivateKeyECDSA.t)
    (hash sig : list byte) (w w' : World engine) :
  SignMarshalECDSA priv hash w = (Returns (sig, None), w') ->
  let key := PrivateKeyECDSA.key priv in
  exists size e1 r out n e2,
    ECDSA_size key (eng w) = (size, e1)
    /\ ECDSA_sign 0 hash (Z.to_nat (C_int size)) key e1 = (r, out, n, e2)
    /\ since w w' = [Call fn_ECDSA_size (C_int size);
                     Call fn_ECDSA_sign (C_int r); KeepAlive key]
    /\ C_int r <> 0
    /\ (let buf := written (repeat Byte.x00 (Z.to_nat (C_int size))) out in
        Z.of_nat (length buf) = C_int size
        /\ sig = firstn (Z.to_nat (C_uint n)) buf)
    /\ Z.of_nat (length sig) = C_uint n
    /\ Z.of_nat (length sig) <= C_int size.
Proof.
  intros Hrun key.
  destruct (SignMarshalECDSA_inv _ _ _ _ _ Hrun)
    as (size & e1 & r & out & n & e2
        & Hsize & Hpos & Hsign & Hr & Hsig & Hlen & Hle & Hlog).
  exists size, e1, r, out, n, e2.
  split; [exact Hsize|]. split; [exact Hsign|]. split; [exact Hlog|].
  split; [exact Hr|]. split; [|split; [exact Hlen|exact Hle]].
  cbv zeta. split; [|exact Hsig].
  rewrite length_written, repeat_length. lia.
Qed.

(** C6.  [SignECDSA] runs [SignMarshalECDSA] and then decodes its bytes.
    A failure of the sign primitive comes back as the engine error made
    for it, a failure of the decoder as the codec's error; the two are
    different errors, and in both cases R and S are nil. *)
Theorem SignECDSA_errors (priv : PrivateKeyECDSA.t) (hash : list byte)
    (w : World engine) :
  (forall msg d c, OpenSSLError msg d <> Asn1Error c)
  /\ match SignMarshalECDSA priv hash w with
     | (Panics reason, w1) => SignECDSA priv hash w = (Panics reason, w1)
     | (Returns (sig, Some e), w1) =>
         SignECDSA priv hash w = (Returns (None, None, Some e), w1)
         /\ (exists d, e = OpenSSLError "ECDSA_sign failed" d)
         /\ In (Call fn_ECDSA_sign 0) (since w w1)
     | (Returns (sig, None), w1) =>
         ~ In (Call fn_ECDSA_sign 0) (since w w1)
         /\ match asn1.Unmarshal sig with
            | (_, _, Some c) =>
                SignECDSA priv hash w
                = (Returns (None, None, Some (Asn1Error c)), w1)
            | (esig, _, None) =>
                SignECDSA priv hash w
                = (Returns (ecdsaSignature.R esig, ecdsaSignature.S esig,
                            None), w1)
            end
     end.
Proof.
  split; [discriminate|].
  unfold SignECDSA, bind.
  destruct (SignMarshalECDSA priv hash w) as [[[sig [e|]]|reason] w1] eqn:Hrun;
    [| |reflexivity].
  - split; [reflexivity|].
    rewrite SignMarshalECDSA_run in Hrun. cbv zeta in Hrun.
    destruct (ECDSA_size _ _) as [size e1].
    destruct (C_int size <? 0); [discriminate|].
    destruct (repeat Byte.x00 _); [discriminate|].
    destruct (ECDSA_sign _ _ _ _ _) as [[[r out] n] e2].
    destruct (Z.eqb_spec (C_int r) 0) as [Hr|Hr].
    + destruct (diagnostics e2) as [d e3]. injection Hrun as <- <- <-.
      split; [eauto|].
      erewrite since_app by (cbn [with_eng log]; now rewrite <- !app_assoc).
      rewrite Hr. cbn [In app]. auto.
    + destruct (_ <? C_uint n); discriminate.
  - split.
    + destruct (SignMarshalECDSA_inv _ _ _ _ _ Hrun)
        as (size & e1 & r & out & n & e2 & _ & _ & _ & Hr & _ & _ & _ & ->).
      cbn [In]. intros [H|[H|[H|[]]]]; try discriminate.
      injection H as H. contradiction.
    + destruct (asn1.Unmarshal sig) as [[esig rest] [c|]]; reflexivity.
Qed.

(** C4.  Take a signature returned by [SignMarshalECDSA] that is the DER
    form of a pair of integers.  [SignECDSA] on the same run returns a
    pair (R, S); re-encoding that pair gives the signature back byte for
    byte, and decoding the re-encoded bytes gives (R, S) back with no
    byte left over. *)
Theorem signature_der_lossless (priv : PrivateKeyECDSA.t)
    (hash sig : list byte) (w w' : World engine) :
  SignMarshalECDSA priv hash w = (Returns (sig, None), w') ->
  DER_signature sig ->
  exists R S : Z,
    SignECDSA priv hash w = (Returns (Some R, Some S, None), w')
    /\ asn1.Unmarshal sig = (ecdsaSignature.mk (Some R) (Some S), [], None)
    /\ asn1.Marshal (ecdsaSignature.mk (Some R) (Some S)) = (sig, None)
    /\ asn1.Unmarshal
         (fst (asn1.Marshal (ecdsaSignature.mk (Some R) (Some S))))
       = (ecdsaSignature.mk (Some R) (Some S), [], None).
Proof.
  intros Hrun (r & s & Hder).
  destruct (SignMarshalECDSA_inv _ _ _ _ _ Hrun)
    as (size & e1 & r0 & out & n & e2 & _ & _ & _ & _ & _ & _ & Hle & _).
  pose proof (C_int_range size) as Hsize.
  pose proof (Unmarshal_Marshal r s) as Hrt.
  rewrite Hder in Hrt. cbn [fst] in Hrt. specialize (Hrt ltac:(lia)).
  exists r, s. split; [|split; [exact Hrt|split; [exact Hder|]]].
  - unfold SignECDSA, bind. rewrite Hrun, Hrt. reflexivity.
  - rewrite Hder. exact Hrt.
Qed.

Ltac unfold_go :=
  unfold bind, ret, defer, panic,
    go_openssl_EC_KEY_new_by_curve_name, go_openssl_EC_KEY_free,
    go_openssl_EC_KEY_get0_group, go_openssl_EC_KEY_generate_key,
    go_openssl_EC_KEY_get0_public_key, go_openssl_EC_KEY_get0_private_key,
    go_openssl_EC_KEY_set_public_key, go_openssl_EC_KEY_set_private_key,
    go_openssl_EC_POINT_new, go_openssl_EC_POINT_free,
    go_openssl_EC_POINT_set_affine_coordinates_GFp,
    go_openssl_EC_POINT_get_affine_coordinates_GFp,
    go_openssl_BN_new, go_openssl_BN_free,
    bigToBN, bnToBig, newOpenSSLError, runtime_SetFinalizer,
    native_new, native_get0, native_int, native_free, with_eng.

Ltac reduce_go :=
  cbv beta iota zeta;
  cbn [eng live log finalizers fst snd negb andb orb].

(** One step of a run: the next answer of the engine is named, or the
    next test on a pointer or an [int] is decided. *)
Ltac step_go :=
  match goal with
  | |- context [match ?c with (_, _) => _ end] =>
      lazymatch c with
      | context [match _ with (_, _) => _ end] => fail
      | context [if _ then _ else _] => fail
      | _ => idtac
      end;
      let p := fresh "p" in let e := fresh "e" in
      destruct c as [p e] eqn:?; reduce_go
  | |- context [Z.eqb ?a ?b] =>
      destruct (Z.eqb_spec a b); reduce_go
  end.

Lemma release_head (k : kind) (p : ptr) (l : list (kind * ptr)) :
  release k p ((k, p) :: l) = l.
Proof. cbn [release]. rewrite Z.eqb_refl. now destruct k. Qed.

Lemma release_second (k : kind) (p q : ptr) (l : list (kind * ptr)) :
  release k q (release k p ((k, q) :: (k, p) :: l)) = l.
Proof.
  cbn [release]. destruct (Z.eqb_spec p q) as [->|Hpq].
  - replace (kind_eqb k k) with true by now destruct k.
    cbn [andb]. apply release_head.
  - replace (kind_eqb k k) with true by now destruct k.
    cbn [andb]. rewrite Z.eqb_refl. cbn [release].
    replace (kind_eqb k k) with true by now destruct k.
    now rewrite Z.eqb_refl.
Qed.

Lemma release_other (k k' : kind) (p q : ptr) (l : list (kind * ptr)) :
  kind_eqb k k' = false ->
  release k p ((k', q) :: l) = (k', q) :: release k p l.
Proof. intros H. cbn [release]. now rewrite H. Qed.

Lemma newECKey_ledger (curve : string) (X Y : Z) (w : World engine) :
  exists key err w',
    newECKey curve X Y w = (Returns (key, err), w')
    /\ finalizers w' = finalizers w
    /\ match err with
       | None => key <> nil /\ live w' = (EC_KEY, key) :: live w
       | Some _ => key = nil /\ live w' = live w
       end.
Proof.
  unfold newECKey.
  destruct (curveNID curve) as [nid [e|]].
  { do 3 eexists. split; [reflexivity|]. auto. }
  unfold_go. reduce_go.
  repeat step_go.
  all: do 3 eexists; (split; [reflexivity|]); reduce_go; (split; [reflexivity|]).
  all: repeat (rewrite release_head || rewrite release_second); auto.
Qed.

Ltac ledger := repeat (rewrite release_head || rewrite release_second).

Lemma NewPublicKeyECDSA_ledger (curve : string) (X Y : Z) (w : World engine) :
  exists k err w',
    NewPublicKeyECDSA curve X Y w = (Returns (k, err), w')
    /\ match k, err with
       | Some k, None =>
           PublicKeyECDSA.key k <> nil
           /\ live w' = (EC_KEY, PublicKeyECDSA.key k) :: live w
           /\ finalizers w' = PublicKeyECDSA.key k :: finalizers w
       | None, Some _ => live w' = live w /\ finalizers w' = finalizers w
       | _, _ => False
       end.
Proof.
  unfold NewPublicKeyECDSA, bind at 1.
  destruct (newECKey_ledger curve X Y w) as (key & err & w1 & -> & Hf & H).
  destruct err as [e|].
  - do 3 eexists. split; [reflexivity|]. tauto.
  - unfold_go. reduce_go. do 3 eexists. split; [reflexivity|].
    cbn [PublicKeyECDSA.key]. reduce_go. rewrite Hf. tauto.
Qed.

Lemma NewPrivateKeyECDSA_ledger (curve : string) (X Y D : Z)
    (w : World engine) :
  exists k err w',
    NewPrivateKeyECDSA curve X Y D w = (Returns (k, err), w')
    /\ match k, err with
       | Some k, None =>
           PrivateKeyECDSA.key k <> nil
           /\ live w' = (EC_KEY, PrivateKeyECDSA.key k) :: live w
           /\ finalizers w' = PrivateKeyECDSA.key k :: finalizers w
       | None, Some _ => live w' = live w /\ finalizers w' = finalizers w
       | _, _ => False
       end.
Proof.
  unfold NewPrivateKeyECDSA, bind at 1.
  destruct (newECKey_ledger curve X Y w) as (key & err & w1 & -> & Hf & H).
  destruct err as [e|].
  - do 3 eexists. split; [reflexivity|]. tauto.
  - destruct H as [Hkey Hlive].
    unfold_go. reduce_go. repeat step_go.
    all: do 3 eexists; (split; [reflexivity|]); reduce_go;
      cbn [PrivateKeyECDSA.key]; rewrite Hlive, Hf; ledger; auto.
Qed.

(** *** Key generation *)

Ltac since_go :=
  erewrite since_app by (cbn [log]; rewrite <- ?app_assoc; reflexivity);
  cbn [app In].

Ltac event_cases :=
  unfold nil in *;
  repeat match goal with
  | H : _ \/ _ |- _ => destruct H
  | H : Call _ _ = Call _ _ |- _ => inversion H; clear H; subst
  | H : False |- _ => destruct H
  | H : _ = _ |- _ => discriminate H
  | H : ?x <> ?x |- _ => now contradiction H
  | H : ?x <> ?y, H' : ?x = ?y |- _ => now contradiction H
  end.

Ltac event_here := solve [repeat (first [left; reflexivity | right])].

Ltac failed_call :=
  unfold nil in *;
  repeat match goal with
  | H : ?x = 0 |- _ => rewrite H in *; clear H
  end;
  first
    [ exists fn_EC_KEY_new_by_curve_name; split; [reflexivity|event_here]
    | exists fn_EC_KEY_generate_key; split; [reflexivity|event_here]
    | exists fn_EC_KEY_get0_public_key; split; [reflexivity|event_here]
    | exists fn_EC_KEY_get0_private_key; split; [reflexivity|event_here]
    | exists fn_BN_new; split; [reflexivity|event_here]
    | exists fn_EC_POINT_get_affine_coordinates_GFp;
      split; [reflexivity|event_here] ].

(** C7.  [GenerateKeyECDSA], for every engine.  The call returns, and
    what it returns is either three non-nil integers and no error, or
    three nil pointers and an error.  The error is [errUnknownCurve] when
    the curve does not resolve, and then no native call was made;
    otherwise it is an engine error, and there is one exactly when one of
    the tested native calls (key allocation, key generation, public point,
    private scalar, bignum allocation, coordinates) returned null or
    zero.  On every path the ledger of native objects is what it was
    before the call: the key object and the bignums have been released. *)
Theorem GenerateKeyECDSA_all_or_nothing (curve : string) (w : World engine) :
  exists X Y D err w',
    GenerateKeyECDSA curve w = (Returns (X, Y, D, err), w')
    /\ live w' = live w
    /\ finalizers w' = finalizers w
    /\ match err with
       | None =>
           (exists x y d, X = Some x /\ Y = Some y /\ D = Some d)
           /\ In curve supported
           /\ (forall f, checked_in_generate f = true ->
                 ~ In (Call f 0) (since w w'))
       | Some e =>
           X = None /\ Y = None /\ D = None
           /\ (e = errUnknownCurve /\ ~ In curve supported /\ w' = w
               \/ (exists msg d, e = OpenSSLError msg d)
                  /\ In curve supported
                  /\ exists f, checked_in_generate f = true
                               /\ In (Call f 0) (since w w'))
       end.
Proof.
  unfold GenerateKeyECDSA.
  pose proof (curveNID_supported curve) as Hs.
  destruct (curveNID curve) as [nid [e|]] eqn:Hnid.
  { cbn [snd] in Hs.
    assert (Hns : ~ In curve supported) by (intros H; apply Hs in H; discriminate).
    rewrite (curveNID_unknown curve Hns) in Hnid. injection Hnid as <- <-.
    do 5 eexists. split; [reflexivity|]. auto 10. }
  assert (Hin : In curve supported) by now apply Hs.
  unfold_go. reduce_go.
  repeat step_go.
  all: do 5 eexists; (split; [reflexivity|]); reduce_go.
  all: (split; [ledger; reflexivity|]); (split; [reflexivity|]).
  all: try (split; [reflexivity|]; split; [reflexivity|]; split; [reflexivity|];
            right; split; [eauto|]; split; [assumption|]).
  all: try (split; [do 3 eexists; repeat split|]; split; [assumption|]).
  all: since_go.
  all: try (intros f Hf Hev; event_cases; discriminate Hf).
  all: failed_call.
Qed.

(** *** Key construction: a key or an error, nothing in between *)

Ltac failed_step :=
  unfold nil in *;
  repeat match goal with
  | H : ?x = 0 |- _ => rewrite H in *; clear H
  end;
  first
    [ exists fn_EC_KEY_new_by_curve_name; split; [reflexivity|event_here]
    | exists fn_EC_POINT_new; split; [reflexivity|event_here]
    | exists fn_bigToBN; split; [reflexivity|event_here]
    | exists fn_EC_POINT_set_affine_coordinates_GFp;
      split; [reflexivity|event_here]
    | exists fn_EC_KEY_set_public_key; split; [reflexivity|event_here]
    | exists fn_EC_KEY_set_private_key; split; [reflexivity|event_here] ].

(** One path of a constructor, once its result and final world are known:
    an error path or the path that returns the key. *)
Ltac construction_path :=
  first
    [ (* an engine error *)
      repeat (split; [ledger; reflexivity|]);
      right; split; [eauto|]; split; [assumption|];
      since_go; failed_step
    | (* the key *)
      split; [assumption|]; split; [ledger; reflexivity|];
      split; [assumption|]; split; [since_go; event_here|];
      since_go;
      let f := fresh "f" in let Hf := fresh "Hf" in let Hev := fresh "Hev" in
      intros f Hf Hev; event_cases; discriminate Hf ].

Lemma newECKey_all_or_nothing (curve : string) (X Y : Z) (w : World engine) :
  exists key err w',
    newECKey curve X Y w = (Returns (key, err), w')
    /\ finalizers w' = finalizers w
    /\ match err with
       | None =>
           key <> nil
           /\ live w' = (EC_KEY, key) :: live w
           /\ In curve supported
           /\ In (Call fn_EC_KEY_new_by_curve_name key) (since w w')
           /\ (forall f, checked_in_construction f = true ->
                 ~ In (Call f 0) (since w w'))
       | Some e =>
           key = nil
           /\ live w' = live w
           /\ (e = errUnknownCurve /\ ~ In curve supported /\ w' = w
               \/ (exists msg d, e = OpenSSLError msg d)
                  /\ In curve supported
                  /\ exists f, checked_in_construction f = true
                               /\ In (Call f 0) (since w w'))
       end.
Proof.
  unfold newECKey.
  pose proof (curveNID_supported curve) as Hs.
  destruct (curveNID curve) as [nid [e|]] eqn:Hnid.
  { cbn [snd] in Hs.
    assert (Hns : ~ In curve supported)
      by (intros H; apply Hs in H; discriminate).
    rewrite (curveNID_unknown curve Hns) in Hnid. injection Hnid as <- <-.
    do 3 eexists. split; [reflexivity|]. auto 10. }
  assert (Hin : In curve supported) by now apply Hs.
  unfold_go. reduce_go.
  repeat step_go.
  all: do 3 eexists; (split; [reflexivity|]); reduce_go;
    (split; [reflexivity|]).
  all: construction_path.
Qed.

Lemma NewPublicKeyECDSA_all_or_nothing (curve : string) (X Y : Z)
    (w : World engine) :
  exists k err w',
    NewPublicKeyECDSA curve X Y w = (Returns (k, err), w')
    /\ match k, err with
       | Some k, None =>
           let key := PublicKeyECDSA.key k in
           finalizers w' = key :: finalizers w
           /\ key <> nil
           /\ live w' = (EC_KEY, key) :: live w
           /\ In curve supported
           /\ In (Call fn_EC_KEY_new_by_curve_name key) (since w w')
           /\ (forall f, checked_in_construction f = true ->
                 ~ In (Call f 0) (since w w'))
       | None, Some e =>
           finalizers w' = finalizers w
           /\ live w' = live w
           /\ (e = errUnknownCurve /\ ~ In curve supported /\ w' = w
               \/ (exists msg d, e = OpenSSLError msg d)
                  /\ In curve supported
                  /\ exists f, checked_in_construction f = true
                               /\ In (Call f 0) (since w w'))
       | _, _ => False
       end.
Proof.
  unfold NewPublicKeyECDSA, newECKey.
  pose proof (curveNID_supported curve) as Hs.
  destruct (curveNID curve) as [nid [e|]] eqn:Hnid.
  { cbn [snd] in Hs.
    assert (Hns : ~ In curve supported)
      by (intros H; apply Hs in H; discriminate).
    rewrite (curveNID_unknown curve Hns) in Hnid. injection Hnid as <- <-.
    do 3 eexists. split; [reflexivity|]. cbv beta iota. auto 10. }
  assert (Hin : In curve supported) by now apply Hs.
  unfold_go. reduce_go.
  repeat step_go.
  all: do 3 eexists; (split; [reflexivity|]); reduce_go;
    cbn [PublicKeyECDSA.key]; cbv zeta.
  all: (split; [reflexivity|]).
  all: construction_path.
Qed.

Lemma NewPrivateKeyECDSA_all_or_nothing (curve : string) (X Y D : Z)
    (w : World engine) :
  exists k err w',
    NewPrivateKeyECDSA curve X Y D w = (Returns (k, err), w')
    /\ match k, err with
       | Some k, None =>
           let key := PrivateKeyECDSA.key k in
           finalizers w' = key :: finalizers w
           /\ key <> nil
           /\ live w' = (EC_KEY, key) :: live w
           /\ In curve supported
           /\ In (Call fn_EC_KEY_new_by_curve_name key) (since w w')
           /\ (forall f, checked_in_construction f = true ->
                 ~ In (Call f 0) (since w w'))
       | None, Some e =>
           finalizers w' = finalizers w
           /\ live w' = live w
           /\ (e = errUnknownCurve /\ ~ In curve supported /\ w' = w
               \/ (exists msg d, e = OpenSSLError msg d)
                  /\ In curve supported
                  /\ exists f, checked_in_construction f = true
                               /\ In (Call f 0) (since w w'))
       | _, _ => False
       end.
Proof.
  unfold NewPrivateKeyECDSA, newECKey.
  pose proof (curveNID_supported curve) as Hs.
  destruct (curveNID curve) as [nid [e|]] eqn:Hnid.
  { cbn [snd] in Hs.
    assert (Hns : ~ In curve supported)
      by (intros H; apply Hs in H; discriminate).
    rewrite (curveNID_unknown curve Hns) in Hnid. injection Hnid as <- <-.
    do 3 eexists. split; [reflexivity|]. cbv beta iota. auto 10. }
  assert (Hin : In curve supported) by now apply Hs.
  unfold_go. reduce_go.
  repeat step_go.
  all: do 3 eexists; (split; [reflexivity|]); reduce_go;
    cbn [PrivateKeyECDSA.key]; cbv zeta.
  all: (split; [reflexivity|]).
  all: construction_path.
Qed.

(** C3.  Key construction, for every engine and every way its calls can
    fail.  [newECKey], [NewPublicKeyECDSA] and [NewPrivateKeyECDSA] end in
    one of two ways and no other.

    Either they return the key and no error: then no tested step
    (allocation of the key object or of the point, conversion of X, Y or
    D, setting of the coordinates, of the public key or of the private
    key) returned null or zero, the handle returned is the key object the
    engine allocated, and the ledger of native objects is the ledger
    before the call plus that key object.

    Or they return an error and a nil handle: [errUnknownCurve] with no
    native call made, or an engine error, and then a tested step did
    return null or zero.  The ledger is then what it was before the call.

    So the point and the bignums made for X, Y and D have been released
    on every path, the key object has been released on every path on
    which a step failed, and a handle is returned only when every step
    succeeded.  A finalizer is registered exactly when a wrapper is
    returned. *)
Theorem key_construction_releases (curve : string) (X Y D : Z)
    (w : World engine) :
  let failed (w' : World engine) (e : error) :=
    e = errUnknownCurve /\ ~ In curve supported /\ w' = w
    \/ (exists msg d, e = OpenSSLError msg d)
       /\ In curve supported
       /\ exists f, checked_in_construction f = true
                    /\ In (Call f 0) (since w w') in
  let built (w' : World engine) (key : ptr) :=
    key <> nil
    /\ live w' = (EC_KEY, key) :: live w
    /\ In curve supported
    /\ In (Call fn_EC_KEY_new_by_curve_name key) (since w w')
    /\ (forall f, checked_in_construction f = true ->
          ~ In (Call f 0) (since w w')) in
  (exists key err w',
     newECKey curve X Y w = (Returns (key, err), w')
     /\ finalizers w' = finalizers w
     /\ match err with
        | None => built w' key
        | Some e => key = nil /\ live w' = live w /\ failed w' e
        end)
  /\ (exists k err w',
        NewPublicKeyECDSA curve X Y w = (Returns (k, err), w')
        /\ match k, err with
           | Some k, None =>
               finalizers w' = PublicKeyECDSA.key k :: finalizers w
               /\ built w' (PublicKeyECDSA.key k)
           | None, Some e =>
               finalizers w' = finalizers w
               /\ live w' = live w /\ failed w' e
           | _, _ => False
           end)
  /\ (exists k err w',
        NewPrivateKeyECDSA curve X Y D w = (Returns (k, err), w')
        /\ match k, err with
           | Some k, None =>
               finalizers w' = PrivateKeyECDSA.key k :: finalizers w
               /\ built w' (PrivateKeyECDSA.key k)
           | None, Some e =>
               finalizers w' = finalizers w
               /\ live w' = live w /\ failed w' e
           | _, _ => False
           end).
Proof.
  cbv zeta. split; [|split].
  - apply newECKey_all_or_nothing.
  - destruct (NewPublicKeyECDSA_all_or_nothing curve X Y w)
      as (k & err & w' & Hrun & H).
    exists k, err, w'. split; [exact Hrun|].
    destruct k as [k|], err as [e|]; exact H.
  - destruct (NewPrivateKeyECDSA_all_or_nothing curve X Y D w)
      as (k & err & w' & Hrun & H).
    exists k, err, w'. split; [exact Hrun|].
    destruct k as [k|], err as [e|]; exact H.
Qed.

(** *** Messages of engine errors *)

Ltac since_in H :=
  erewrite since_app in H by (cbn [log]; rewrite <- ?app_assoc; reflexivity);
  cbn [app In] in H.

(** C10.  The message of an engine error does not always name the call
    that failed.  In [newECKey], when the conversion of X or of Y returned
    null, or setting the affine coordinates or the public key returned
    zero, the error carries the message "EC_POINT_free failed".  In
    [GenerateKeyECDSA], when the public point is null, the error carries
    the message "EC_KEY_get0_private_key failed". *)
Theorem misnamed_failures :
  (forall curve X Y (w w' : World engine) key err,
     newECKey curve X Y w = (Returns (key, err), w') ->
     In (Call fn_bigToBN 0) (since w w')
     \/ In (Call fn_EC_POINT_set_affine_coordinates_GFp 0) (since w w')
     \/ In (Call fn_EC_KEY_set_public_key 0) (since w w') ->
     exists d, err = Some (OpenSSLError "EC_POINT_free failed" d))
  /\ (forall curve (w w' : World engine) X Y D err,
        GenerateKeyECDSA curve w = (Returns (X, Y, D, err), w') ->
        In (Call fn_EC_KEY_get0_public_key 0) (since w w') ->
        exists d,
          err = Some (OpenSSLError "EC_KEY_get0_private_key failed" d)).
Proof.
  split.
  - intros curve X Y w w' key err. unfold newECKey.
    destruct (curveNID curve) as [nid [e|]].
    { intros Hrun Hev. injection Hrun as <- <- <-.
      unfold since in Hev. rewrite skipn_all in Hev. cbn [In] in Hev. tauto. }
    unfold_go. reduce_go. repeat step_go.
    all: intros Hrun Hev; injection Hrun as <- <- <-.
    all: since_in Hev.
    all: try (eexists; reflexivity).
    all: exfalso; event_cases.
  - intros curve w w' X Y D err. unfold GenerateKeyECDSA.
    destruct (curveNID curve) as [nid [e|]].
    { intros Hrun Hev. injection Hrun as <- <- <- <- <-.
      unfold since in Hev. rewrite skipn_all in Hev. cbn [In] in Hev. tauto. }
    unfold_go. reduce_go. repeat step_go.
    all: intros Hrun Hev; injection Hrun as <- <- <- <- <-.
    all: since_in Hev.
    all: try (eexists; reflexivity).
    all: exfalso; event_cases.
Qed.

(** *** The life of a key handle *)

(** X1.  A key wrapper that a constructor returned has a finalizer
    registered for its handle, and running that finalizer releases the
    handle: the ledger of native objects is then what it was before the
    key was built. *)
Theorem construct_then_finalize (curve : string) (X Y D : Z)
    (w : World engine) :
  (forall k w1,
     NewPublicKeyECDSA curve X Y w = (Returns (Some k, None), w1) ->
     In (PublicKeyECDSA.key k) (finalizers w1)
     /\ exists w2,
          PublicKeyECDSA_finalize k w1 = (Returns tt, w2)
          /\ live w2 = live w
          /\ since w1 w2 = [Release EC_KEY (PublicKeyECDSA.key k)])
  /\ (forall k w1,
        NewPrivateKeyECDSA curve X Y D w = (Returns (Some k, None), w1) ->
        In (PrivateKeyECDSA.key k) (finalizers w1)
        /\ exists w2,
             PrivateKeyECDSA_finalize k w1 = (Returns tt, w2)
             /\ live w2 = live w
             /\ since w1 w2 = [Release EC_KEY (PrivateKeyECDSA.key k)]).
Proof.
  split; intros k w1 Hnew.
  - destruct (NewPublicKeyECDSA_ledger curve X Y w)
      as (k' & err & w' & Hrun & H).
    rewrite Hnew in Hrun. injection Hrun as <- <- <-.
    destruct H as (_ & Hlive & Hfin).
    split; [rewrite Hfin; now left|].
    eexists. split; [reflexivity|]. cbn [live]. rewrite Hlive, release_head.
    split; [reflexivity|]. now apply since_app.
  - destruct (NewPrivateKeyECDSA_ledger curve X Y D w)
      as (k' & err & w' & Hrun & H).
    rewrite Hnew in Hrun. injection Hrun as <- <- <-.
    destruct H as (_ & Hlive & Hfin).
    split; [rewrite Hfin; now left|].
    eexists. split; [reflexivity|]. cbn [live]. rewrite Hlive, release_head.
    split; [reflexivity|]. now apply since_app.
Qed.

(** *** Signing: panics, and what is left alone *)

(** X2.  [SignMarshalECDSA] panics in two cases and no other: the engine
    reports a maximum signature size that is zero or negative, and then
    the sign primitive is never called; or the sign primitive succeeds and
    reports a length greater than that size.  [SignECDSA] panics whenever
    [SignMarshalECDSA] does. *)
Theorem SignMarshalECDSA_panics (priv : PrivateKeyECDSA.t)
    (hash : list byte) (w : World engine) (size r n : Z) (e1 e2 : engine)
    (out : list byte) :
  ECDSA_size (PrivateKeyECDSA.key priv) (eng w) = (size, e1) ->
  ECDSA_sign 0 hash (Z.to_nat (C_int size)) (PrivateKeyECDSA.key priv) e1
  = (r, out, n, e2) ->
  ((exists reason w', SignMarshalECDSA priv hash w = (Panics reason, w'))
   <-> C_int size <= 0 \/ (C_int r <> 0 /\ C_int size < C_uint n))
  /\ (C_int size <= 0 ->
      exists reason,
        SignMarshalECDSA priv hash w
        = (Panics reason, with_eng w e1 (Call fn_ECDSA_size (C_int size))))
  /\ (forall reason w',
        SignMarshalECDSA priv hash w = (Panics reason, w') ->
        SignECDSA priv hash w = (Panics reason, w')).
Proof.
  intros Hsize Hsign.
  assert (Hrun := SignMarshalECDSA_run priv hash w).
  cbv zeta in Hrun. rewrite Hsize in Hrun.
  split; [|split].
  - destruct (Z.ltb_spec (C_int size) 0) as [Hneg|Hnn].
    { rewrite Hrun. split; [intros _; left; lia|eauto]. }
    destruct (Z.eq_dec (C_int size) 0) as [Hz|Hnz].
    { rewrite Hz in Hrun. cbn [Z.to_nat repeat] in Hrun. rewrite Hrun.
      split; [intros _; left; lia|eauto]. }
    destruct (repeat Byte.x00 (Z.to_nat (C_int size))) as [|b0 buf] eqn:Hbuf.
    { apply (f_equal (@length byte)) in Hbuf. rewrite repeat_length in Hbuf.
      cbn in Hbuf. lia. }
    assert (Hlen : length (b0 :: buf) = Z.to_nat (C_int size))
      by (rewrite <- Hbuf; apply repeat_length).
    rewrite Hlen, Hsign in Hrun.
    destruct (Z.eqb_spec (C_int r) 0) as [Hr|Hr].
    { destruct (diagnostics e2) as [d e3]. rewrite Hrun.
      split; [intros (reason & w' & H); discriminate H|].
      intros [H|[H _]]; [lia|contradiction]. }
    rewrite length_written, Hlen, Z2Nat.id in Hrun by lia.
    destruct (Z.ltb_spec (C_int size) (C_uint n)) as [Hbig|Hok]; rewrite Hrun.
    + split; [intros _; right; split; assumption|eauto].
    + split; [intros (reason & w' & H); discriminate H|].
      intros [H|[_ H]]; lia.
  - intros Hle.
    destruct (Z.ltb_spec (C_int size) 0) as [Hneg|Hnn].
    { rewrite Hrun. eauto. }
    assert (Hz : C_int size = 0) by lia.
    rewrite Hz in Hrun. cbn [Z.to_nat repeat] in Hrun. rewrite Hrun, Hz. eauto.
  - intros reason w' H. unfold SignECDSA, bind. now rewrite H.
Qed.

(** X3.  Signing and verification leave the native objects alone: on
    every path, panics included, [SignMarshalECDSA], [SignECDSA] and
    [VerifyECDSA] end with the ledger and the registered finalizers they
    started with, and their log holds no release. *)
Theorem sign_verify_frame (priv : PrivateKeyECDSA.t) (pub : PublicKeyECDSA.t)
    (hash : list byte) (r s : big_Int) (w : World engine) :
  let untouched (w' : World engine) :=
    live w' = live w /\ finalizers w' = finalizers w
    /\ forall k p, ~ In (Release k p) (since w w') in
  untouched (snd (SignMarshalECDSA priv hash w))
  /\ untouched (snd (SignECDSA priv hash w))
  /\ untouched (snd (VerifyECDSA pub hash r s w)).
Proof.
  cbv zeta.
  assert (Hsign :
    live (snd (SignMarshalECDSA priv hash w)) = live w
    /\ finalizers (snd (SignMarshalECDSA priv hash w)) = finalizers w
    /\ forall k p,
         ~ In (Release k p) (since w (snd (SignMarshalECDSA priv hash w)))).
  { rewrite SignMarshalECDSA_run. cbv zeta.
    destruct (ECDSA_size _ _) as [size e1].
    destruct (C_int size <? 0).
    { unfold with_eng; cbn [snd live finalizers log eng]; repeat split.
      intros k p. since_go. intros H. event_cases. }
    destruct (repeat Byte.x00 _) as [|b0 buf].
    { unfold with_eng; cbn [snd live finalizers log eng]; repeat split.
      intros k p. since_go. intros H. event_cases. }
    destruct (ECDSA_sign _ _ _ _ _) as [[[r0 out] n] e2].
    destruct (C_int r0 =? 0).
    { destruct (diagnostics e2) as [d e3].
      unfold with_eng; cbn [snd live finalizers log eng]. repeat split.
      intros k p. since_go. intros H. event_cases. }
    destruct (_ <? C_uint n); unfold with_eng; cbn [snd live finalizers log eng];
      repeat split; intros k p; since_go; intros H;
      event_cases. }
  split; [exact Hsign|]. split.
  - unfold SignECDSA, bind.
    destruct (SignMarshalECDSA priv hash w) as [[[sig [e|]]|reason] w1];
      cbn [snd] in *; try exact Hsign.
    destruct (asn1.Unmarshal sig) as [[esig rest] [c|]]; exact Hsign.
  - rewrite VerifyECDSA_run.
    destruct (asn1.Marshal _) as [sig [e|]].
    { cbn [snd]. repeat split. intros k p.
      unfold since. rewrite skipn_all. intros []. }
    cbv zeta. destruct (ECDSA_verify _ _ _ _ _) as [v e].
    cbn [snd live finalizers]. repeat split.
    intros k p. since_go. intros H. event_cases.
Qed.

(** *** Signing and verifying through the pair (R, S) *)

(** The encoding of a pair followed by other bytes decodes to the pair,
    and the other bytes are what is left. *)
Lemma Unmarshal_Marshal_app (r s : Z) (junk : list byte) :
  Z.of_nat (length (fst (asn1.Marshal (ecdsaSignature.mk (Some r) (Some s)))))
    < 2 ^ 31 ->
  asn1.Unmarshal
    (fst (asn1.Marshal (ecdsaSignature.mk (Some r) (Some s))) ++ junk)
  = (ecdsaSignature.mk (Some r) (Some s), junk, None).
Proof.
  rewrite Marshal_some. cbn [fst].
  set (fr := fst (asn1.makeField (Some r))).
  set (fs := fst (asn1.makeField (Some s))).
  intros Hlen. rewrite !length_app in Hlen.
  unfold asn1.Unmarshal. rewrite <- !app_assoc.
  rewrite (app_assoc fr fs junk).
  rewrite parseHeader_append by (auto; rewrite length_app; lia).
  unfold fr at 1. rewrite parseField_makeField by (fold fr; lia).
  pose proof (parseField_makeField s []) as Hs. rewrite app_nil_r in Hs.
  fold fs in Hs. rewrite Hs by lia.
  reflexivity.
Qed.

(** X4.  Signing then verifying.  When the signature the engine wrote is
    the DER form of a pair, [SignECDSA] returns that pair, and
    [VerifyECDSA] on the pair, for any key, digest and world, hands the
    engine's verify primitive the very bytes the engine wrote when
    signing; its answer is the sign of what the primitive returns. *)
Theorem sign_then_verify (priv : PrivateKeyECDSA.t) (pub : PublicKeyECDSA.t)
    (hash hash' sig : list byte) (w w1 w2 : World engine) :
  SignMarshalECDSA priv hash w = (Returns (sig, None), w1) ->
  DER_signature sig ->
  exists (R S v : Z) (e : engine),
    SignECDSA priv hash w = (Returns (Some R, Some S, None), w1)
    /\ ECDSA_verify 0 hash' sig (PublicKeyECDSA.key pub) (eng w2) = (v, e)
    /\ VerifyECDSA pub hash' (Some R) (Some S) w2
       = (Returns (0 <? C_int v),
          mkWorld e (live w2)
            (log w2 ++ [Call fn_ECDSA_verify (C_int v);
                        KeepAlive (PublicKeyECDSA.key pub)])
            (finalizers w2)).
Proof.
  intros Hrun (r & s & Hder).
  destruct (SignMarshalECDSA_inv _ _ _ _ _ Hrun)
    as (size & e1 & r0 & out & n & e2 & _ & _ & _ & _ & _ & _ & Hle & _).
  pose proof (C_int_range size) as Hsize.
  pose proof (Unmarshal_Marshal r s) as Hrt.
  rewrite Hder in Hrt. cbn [fst] in Hrt. specialize (Hrt ltac:(lia)).
  destruct (ECDSA_verify 0 hash' sig (PublicKeyECDSA.key pub) (eng w2))
    as [v e] eqn:Hv.
  exists r, s, v, e. split; [|split; [reflexivity|]].
  - unfold SignECDSA, bind. rewrite Hrun, Hrt. reflexivity.
  - rewrite VerifyECDSA_run, Hder. cbv zeta. now rewrite Hv.
Qed.

(** X5.  [SignECDSA] drops what follows the pair.  When the bytes
    returned by [SignMarshalECDSA] are the DER form of a pair followed by
    other bytes, [SignECDSA] returns the pair with no error; encoding the
    pair again gives the bytes without what followed, so not the bytes
    that were returned unless nothing followed. *)
Theorem SignECDSA_drops_trailing_bytes (priv : PrivateKeyECDSA.t)
    (hash junk : list byte) (r s : Z) (w w1 : World engine) :
  let der := fst (asn1.Marshal (ecdsaSignature.mk (Some r) (Some s))) in
  SignMarshalECDSA priv hash w = (Returns (der ++ junk, None), w1) ->
  SignECDSA priv hash w = (Returns (Some r, Some s, None), w1)
  /\ (junk <> [] -> der <> der ++ junk).
Proof.
  cbv zeta. intros Hrun.
  destruct (SignMarshalECDSA_inv _ _ _ _ _ Hrun)
    as (size & e1 & r0 & out & n & e2 & _ & _ & _ & _ & _ & _ & Hle & _).
  pose proof (C_int_range size) as Hsize.
  rewrite length_app in Hle.
  split.
  - unfold SignECDSA, bind. rewrite Hrun, Unmarshal_Marshal_app by lia.
    reflexivity.
  - intros Hj Heq. apply (f_equal (@length byte)) in Heq.
    rewrite length_app in Heq.
    destruct junk; [contradiction|]. cbn [length] in Heq. lia.
Qed.

(** *** Key construction: what a failed step prevents *)

(** X6.  In [newECKey] a conversion of X or Y that returned null keeps
    the engine's coordinate setter and public-key setter from being
    called at all, and a failed coordinate setter keeps the public-key
    setter from being called.  In [NewPrivateKeyECDSA] any null
    conversion, of X, Y or D, and any failed setter of the public part
    keeps the private-key setter from being called. *)
Theorem failed_step_stops_setters (curve : string) (X Y D : Z)
    (w : World engine) :
  (let evs := since w (snd (newECKey curve X Y w)) in
   (In (Call fn_bigToBN 0) evs ->
    forall v, ~ In (Call fn_EC_POINT_set_affine_coordinates_GFp v) evs
              /\ ~ In (Call fn_EC_KEY_set_public_key v) evs)
   /\ (In (Call fn_EC_POINT_set_affine_coordinates_GFp 0) evs ->
       forall v, ~ In (Call fn_EC_KEY_set_public_key v) evs))
  /\ (let evs := since w (snd (NewPrivateKeyECDSA curve X Y D w)) in
      In (Call fn_bigToBN 0) evs
      \/ In (Call fn_EC_POINT_set_affine_coordinates_GFp 0) evs
      \/ In (Call fn_EC_KEY_set_public_key 0) evs ->
      forall v, ~ In (Call fn_EC_KEY_set_private_key v) evs).
Proof.
  cbv zeta. split.
  - unfold newECKey.
    destruct (curveNID curve) as [nid [e|]].
    { cbn [snd ret]. unfold since. rewrite skipn_all. cbn [In]. tauto. }
    unfold_go. reduce_go. repeat step_go.
    all: since_go.
    all: split; [intros Hev v; split; intros Hv|intros Hev v Hv].
    all: event_cases.
  - unfold NewPrivateKeyECDSA, newECKey.
    destruct (curveNID curve) as [nid [e|]].
    { cbn [snd ret bind]. unfold bind, ret. cbn [snd].
      unfold since. rewrite skipn_all. cbn [In]. tauto. }
    unfold_go. reduce_go. repeat step_go.
    all: since_go.
    all: intros Hev v Hv.
    all: event_cases.
Qed.

(** *** Key generation: the order of a successful run *)


(** *** Messages of engine errors, step by step *)

Lemma curveNID_error (curve : string) (nid : Z) (e : error) :
  curveNID curve = (nid, Some e) -> e = errUnknownCurve.
Proof.
  unfold curveNID.
  repeat match goal with
  | |- context [String.eqb ?a ?b] => destruct (String.eqb a b)
  end; intros H; now inversion H.
Qed.

(** X8.  The message of the engine error [GenerateKeyECDSA] returns tells
    which step returned null or zero: the key allocation, the key
    generation, one of the two extractions (public point or private
    scalar, under one message), a bignum allocation, or the reading of
    the coordinates. *)
Theorem GenerateKeyECDSA_messages (curve : string) (w w' : World engine)
    (X Y D : big_Int) (msg d : string) :
  GenerateKeyECDSA curve w
  = (Returns (X, Y, D, Some (OpenSSLError msg d)), w') ->
  let evs := since w w' in
  In (Call fn_EC_KEY_new_by_curve_name 0) evs
    /\ msg = "EC_KEY_new_by_curve_name failed"%string
  \/ In (Call fn_EC_KEY_generate_key 0) evs
     /\ msg = "EC_KEY_generate_key failed"%string
  \/ (In (Call fn_EC_KEY_get0_public_key 0) evs
      \/ In (Call fn_EC_KEY_get0_private_key 0) evs)
     /\ msg = "EC_KEY_get0_private_key failed"%string
  \/ In (Call fn_BN_new 0) evs /\ msg = "BN_new failed"%string
  \/ In (Call fn_EC_POINT_get_affine_coordinates_GFp 0) evs
     /\ msg = "EC_POINT_get_affine_coordinates_GFp failed"%string.
Proof.
  cbv zeta. unfold GenerateKeyECDSA.
  destruct (curveNID curve) as [nid [e|]] eqn:Hnid;
    [apply curveNID_error in Hnid; subst e; discriminate|].
  unfold_go. reduce_go. repeat step_go.
  all: intros Hrun; try discriminate Hrun;
       injection Hrun as <- <- <- <- <- <-.
  all: since_go.
  all: unfold nil in *;
       repeat match goal with H : ?x = 0 |- _ => rewrite H in *; clear H end.
  all: tauto.
Qed.


(** *** Releases *)

Ltac own_allocation :=
  split; [assumption|];
  first
    [ exists fn_EC_KEY_new_by_curve_name; split; [reflexivity|event_here]
    | exists fn_EC_POINT_new; split; [reflexivity|event_here]
    | exists fn_BN_new; split; [reflexivity|event_here]
    | exists fn_bigToBN; split; [reflexivity|event_here] ].

Ltac release_cases :=
  repeat match goal with
  | H : _ \/ _ |- _ => destruct H
  | H : False |- _ => destruct H
  | H : Release _ _ = Release _ _ |- _ => inversion H; clear H; subst
  | H : _ = Release _ _ |- _ => discriminate H
  end.

(** X10.  Key construction and key generation release nothing but what
    they allocated: every release in a run is of a non-null pointer that
    an allocation of the same kind returned in the same run.  The group,
    the public point and the private scalar, which the key object owns,
    are never released by this layer. *)
Theorem releases_only_own_allocations (curve : string) (X Y D : Z)
    (w : World engine) :
  let own (evs : list event) :=
    forall k p, In (Release k p) evs ->
      p <> nil /\ exists f, allocates f k = true /\ In (Call f p) evs in
  own (since w (snd (newECKey curve X Y w)))
  /\ own (since w (snd (NewPublicKeyECDSA curve X Y w)))
  /\ own (since w (snd (NewPrivateKeyECDSA curve X Y D w)))
  /\ own (since w (snd (GenerateKeyECDSA curve w))).
Proof.
  cbv zeta.
  assert (Hnone : forall k p,
            In (Release k p) (since w w) ->
            p <> nil /\ exists f, allocates f k = true /\ In (Call f p) (since w w)).
  { intros k p H. unfold since in H. rewrite skipn_all in H. destruct H. }
  split; [|split; [|split]].
  - unfold newECKey.
    destruct (curveNID curve) as [nid [e|]]; [exact Hnone|].
    unfold_go. reduce_go. repeat step_go.
    all: since_go; intros k0 q Hin; release_cases; own_allocation.
  - unfold NewPublicKeyECDSA, newECKey.
    destruct (curveNID curve) as [nid [e|]]; [exact Hnone|].
    unfold_go. reduce_go. repeat step_go.
    all: since_go; intros k0 q Hin; release_cases; own_allocation.
  - unfold NewPrivateKeyECDSA, newECKey.
    destruct (curveNID curve) as [nid [e|]]; [exact Hnone|].
    unfold_go. reduce_go. repeat step_go.
    all: since_go; intros k0 q Hin; release_cases; own_allocation.
  - unfold GenerateKeyECDSA.
    destruct (curveNID curve) as [nid [e|]]; [exact Hnone|].
    unfold_go. reduce_go. repeat step_go.
    all: since_go; intros k0 q Hin; release_cases; own_allocation.
Qed.

End Properties.

(* ===================================================================== *)
(** ** The theorems at work on the scripted engine                        *)
(* ===================================================================== *)

(** A name outside the registry. *)
Lemma curveNID_exact_witness :
  ~ In "P-192"%string supported
  /\ curveNID (engine := Replay.script) "P-192" = (0, Some errUnknownCurve)
  /\ newECKey "P-192" 5 6 (Replay.world [10; 11] [])
     = (Returns (nil, Some errUnknownCurve), Replay.world [10; 11] []).
Proof.
  assert (H : ~ In "P-192"%string supported).
  { cbn. intros [H|[H|[H|[H|[]]]]]; discriminate H. }
  split; [exact H|].
  destruct (@curveNID_exact Replay.script Replay.engine)
    as (_ & _ & _ & _ & _ & Hu).
  destruct (Hu "P-192"%string H) as (Hc & Hk & _).
  split; [exact Hc|apply Hk].
Defined.

(** A pair with a negative R reaches the engine; a nil S does not. *)
Lemma VerifyECDSA_nil_and_negative_witness :
  snd (asn1.Marshal (ecdsaSignature.mk (Some 1) None)) <> None
  /\ VerifyECDSA (PublicKeyECDSA.mk 10) [] (Some 1) None (Replay.world [1] [])
     = (Returns false, Replay.world [1] [])
  /\ exists sig v e,
       asn1.Marshal (ecdsaSignature.mk (Some (-5)) (Some 3)) = (sig, None)
       /\ ECDSA_verify 0 [] sig 10 (eng (Replay.world [1] [])) = (v, e)
       /\ VerifyECDSA (PublicKeyECDSA.mk 10) [] (Some (-5)) (Some 3)
            (Replay.world [1] [])
          = (Returns (0 <? C_int v),
             mkWorld e [] [Call fn_ECDSA_verify (C_int v); KeepAlive 10] []).
Proof.
  assert (Hnil : snd (asn1.Marshal (ecdsaSignature.mk (Some 1) None)) <> None)
    by (vm_compute; discriminate).
  destruct (@VerifyECDSA_nil_and_negative Replay.script Replay.engine
              (PublicKeyECDSA.mk 10) [] (Replay.world [1] []))
    as (Hfail & _ & _ & Hpass).
  split; [exact Hnil|].
  split; [exact (Hfail (Some 1) None Hnil)|].
  exact (Hpass (-5) 3).
Defined.

(** A run that signs: the engine announces 72 bytes and writes 8. *)
Lemma SignMarshalECDSA_truncates_witness :
  SignMarshalECDSA (PrivateKeyECDSA.mk 10) []
    (Replay.world [72; 1; 8] Replay.der12)
  = (Returns (Replay.der12, None),
     mkWorld (Replay.mk [] Replay.der12) []
       [Call fn_ECDSA_size 72; Call fn_ECDSA_sign 1; KeepAlive 10] [])
  /\ exists size : Z,
       fst (ECDSA_size 10 (eng (Replay.world [72; 1; 8] Replay.der12))) = size
       /\ Z.of_nat (length Replay.der12) <= C_int size.
Proof.
  assert (Hrun :
    SignMarshalECDSA (PrivateKeyECDSA.mk 10) []
      (Replay.world [72; 1; 8] Replay.der12)
    = (Returns (Replay.der12, None),
       mkWorld (Replay.mk [] Replay.der12) []
         [Call fn_ECDSA_size 72; Call fn_ECDSA_sign 1; KeepAlive 10] []))
    by (vm_compute; reflexivity).
  split; [exact Hrun|].
  destruct (SignMarshalECDSA_truncates _ _ _ _ _ Hrun)
    as (size & e1 & r & out & n & e2 & Hsize & _ & _ & _ & _ & _ & Hle).
  exists size. split; [|exact Hle].
  cbn [PrivateKeyECDSA.key] in Hsize. now rewrite Hsize.
Defined.

(** The same run, decoded and re-encoded. *)
Lemma signature_der_lossless_witness :
  SignMarshalECDSA (PrivateKeyECDSA.mk 10) []
    (Replay.world [72; 1; 8] Replay.der12)
  = (Returns (Replay.der12, None),
     mkWorld (Replay.mk [] Replay.der12) []
       [Call fn_ECDSA_size 72; Call fn_ECDSA_sign 1; KeepAlive 10] [])
  /\ DER_signature Replay.der12
  /\ exists R S : Z,
       SignECDSA (PrivateKeyECDSA.mk 10) []
         (Replay.world [72; 1; 8] Replay.der12)
       = (Returns (Some R, Some S, None),
          mkWorld (Replay.mk [] Replay.der12) []
            [Call fn_ECDSA_size 72; Call fn_ECDSA_sign 1; KeepAlive 10] [])
       /\ asn1.Unmarshal Replay.der12
          = (ecdsaSignature.mk (Some R) (Some S), [], None)
       /\ asn1.Marshal (ecdsaSignature.mk (Some R) (Some S))
          = (Replay.der12, None)
       /\ asn1.Unmarshal
            (fst (asn1.Marshal (ecdsaSignature.mk (Some R) (Some S))))
          = (ecdsaSignature.mk (Some R) (Some S), [], None).
Proof.
  assert (Hrun :
    SignMarshalECDSA (PrivateKeyECDSA.mk 10) []
      (Replay.world [72; 1; 8] Replay.der12)
    = (Returns (Replay.der12, None),
       mkWorld (Replay.mk [] Replay.der12) []
         [Call fn_ECDSA_size 72; Call fn_ECDSA_sign 1; KeepAlive 10] []))
    by (vm_compute; reflexivity).
  assert (Hder : DER_signature Replay.der12)
    by (exists 1, 2; vm_compute; reflexivity).
  split; [exact Hrun|]. split; [exact Hder|].
  exact (signature_der_lossless _ _ _ _ _ Hrun Hder).
Defined.

(** Two runs whose error names a call that did not fail: the conversion
    of Y returns null in the first, the public point is null in the
    second. *)
Lemma misnamed_failures_witness :
  (exists w',
     newECKey "P-256" 5 6 (Replay.world [10; 11; 12; 13; 0] [])
     = (Returns (nil, Some (OpenSSLError "EC_POINT_free failed" "")), w')
     /\ In (Call fn_bigToBN 0) (since (Replay.world [10; 11; 12; 13; 0] []) w')
     /\ exists d,
          Some (OpenSSLError "EC_POINT_free failed" "")
          = Some (OpenSSLError "EC_POINT_free failed" d))
  /\ (exists w',
        GenerateKeyECDSA "P-256" (Replay.world [10; 1; 11; 0; 13] [])
        = (Returns (None, None, None,
                    Some (OpenSSLError "EC_KEY_get0_private_key failed" "")),
           w')
        /\ In (Call fn_EC_KEY_get0_public_key 0)
             (since (Replay.world [10; 1; 11; 0; 13] []) w')
        /\ exists d,
             Some (OpenSSLError "EC_KEY_get0_private_key failed" "")
             = Some (OpenSSLError "EC_KEY_get0_private_key failed" d)).
Proof.
  destruct (@misnamed_failures Replay.script Replay.engine) as [Hnew Hgen].
  split.
  - eexists. split; [vm_compute; reflexivity|].
    assert (Hev : In (Call fn_bigToBN 0)
              (since (Replay.world [10; 11; 12; 13; 0] [])
                 (snd (newECKey "P-256" 5 6
                         (Replay.world [10; 11; 12; 13; 0] [])))))
      by (vm_compute; tauto).
    split; [exact Hev|].
    refine (Hnew "P-256"%string 5 6 _ _ _ _ _ (or_introl Hev)).
    vm_compute; reflexivity.
  - eexists. split; [vm_compute; reflexivity|].
    assert (Hev : In (Call fn_EC_KEY_get0_public_key 0)
              (since (Replay.world [10; 1; 11; 0; 13] [])
                 (snd (GenerateKeyECDSA "P-256"
                         (Replay.world [10; 1; 11; 0; 13] [])))))
      by (vm_compute; tauto).
    split; [exact Hev|].
    refine (Hgen "P-256"%string _ _ _ _ _ _ _ Hev).
    vm_compute; reflexivity.
Defined.

(* ===================================================================== *)
(** ** Further runs on the scripted engine                                *)
(* ===================================================================== *)

(** A public key is built, then finalized: nothing is left. *)
Lemma construct_then_finalize_witness :
  NewPublicKeyECDSA "P-256" 5 6 (Replay.world [] [])
  = (Returns (Some (PublicKeyECDSA.mk 1), None),
     snd (NewPublicKeyECDSA "P-256" 5 6 (Replay.world [] [])))
  /\ exists w2,
       PublicKeyECDSA_finalize (PublicKeyECDSA.mk 1)
         (snd (NewPublicKeyECDSA "P-256" 5 6 (Replay.world [] [])))
       = (Returns tt, w2)
       /\ live w2 = [].
Proof.
  assert (Hrun :
    NewPublicKeyECDSA "P-256" 5 6 (Replay.world [] [])
    = (Returns (Some (PublicKeyECDSA.mk 1), None),
       snd (NewPublicKeyECDSA "P-256" 5 6 (Replay.world [] []))))
    by (vm_compute; reflexivity).
  split; [exact Hrun|].
  destruct (@construct_then_finalize Replay.script Replay.engine
              "P-256"%string 5 6 7 (Replay.world [] [])) as [Hpub _].
  destruct (Hpub _ _ Hrun) as (_ & w2 & Hfin & Hlive & _).
  exists w2. split; [exact Hfin|exact Hlive].
Defined.

(** The engine reports a maximum size of zero: a panic, and no signing. *)
Lemma SignMarshalECDSA_panics_witness :
  ECDSA_size 10 (eng (Replay.world [0; 1; 7] Replay.der12))
  = (0, Replay.mk [1; 7] Replay.der12)
  /\ ECDSA_sign 0 [] (Z.to_nat (C_int 0)) 10 (Replay.mk [1; 7] Replay.der12)
     = (1, Replay.der12, 7, Replay.mk [] Replay.der12)
  /\ C_int 0 <= 0
  /\ exists reason,
       SignMarshalECDSA (PrivateKeyECDSA.mk 10) []
         (Replay.world [0; 1; 7] Replay.der12)
       = (Panics reason,
          with_eng (Replay.world [0; 1; 7] Replay.der12)
            (Replay.mk [1; 7] Replay.der12) (Call fn_ECDSA_size (C_int 0))).
Proof.
  assert (H1 : ECDSA_size 10 (eng (Replay.world [0; 1; 7] Replay.der12))
               = (0, Replay.mk [1; 7] Replay.der12)) by reflexivity.
  assert (H2 : ECDSA_sign 0 [] (Z.to_nat (C_int 0)) 10
                 (Replay.mk [1; 7] Replay.der12)
               = (1, Replay.der12, 7, Replay.mk [] Replay.der12))
    by reflexivity.
  assert (H3 : C_int 0 <= 0) by (vm_compute; discriminate).
  split; [exact H1|]. split; [exact H2|]. split; [exact H3|].
  destruct (SignMarshalECDSA_panics (PrivateKeyECDSA.mk 10) []
              (Replay.world [0; 1; 7] Replay.der12) _ _ _ _ _ _ H1 H2)
    as (_ & Hpanic & _).
  exact (Hpanic H3).
Defined.

(** The pair of a signature goes back to the engine as the same bytes. *)
Lemma sign_then_verify_witness :
  SignMarshalECDSA (PrivateKeyECDSA.mk 10) []
    (Replay.world [72; 1; 8] Replay.der12)
  = (Returns (Replay.der12, None),
     mkWorld (Replay.mk [] Replay.der12) []
       [Call fn_ECDSA_size 72; Call fn_ECDSA_sign 1; KeepAlive 10] [])
  /\ DER_signature Replay.der12
  /\ exists (R S v : Z) (e : Replay.script),
       SignECDSA (PrivateKeyECDSA.mk 10) []
         (Replay.world [72; 1; 8] Replay.der12)
       = (Returns (Some R, Some S, None),
          mkWorld (Replay.mk [] Replay.der12) []
            [Call fn_ECDSA_size 72; Call fn_ECDSA_sign 1; KeepAlive 10] [])
       /\ ECDSA_verify 0 [] Replay.der12 20 (eng (Replay.world [1] []))
          = (v, e)
       /\ VerifyECDSA (PublicKeyECDSA.mk 20) [] (Some R) (Some S)
            (Replay.world [1] [])
          = (Returns (0 <? C_int v),
             mkWorld e [] [Call fn_ECDSA_verify (C_int v); KeepAlive 20] []).
Proof.
  assert (Hrun :
    SignMarshalECDSA (PrivateKeyECDSA.mk 10) []
      (Replay.world [72; 1; 8] Replay.der12)
    = (Returns (Replay.der12, None),
       mkWorld (Replay.mk [] Replay.der12) []
         [Call fn_ECDSA_size 72; Call fn_ECDSA_sign 1; KeepAlive 10] []))
    by (vm_compute; reflexivity).
  assert (Hder : DER_signature Replay.der12)
    by (exists 1, 2; vm_compute; reflexivity).
  split; [exact Hrun|]. split; [exact Hder|].
  exact (sign_then_verify (PrivateKeyECDSA.mk 10) (PublicKeyECDSA.mk 20)
           [] [] _ _ _ (Replay.world [1] []) Hrun Hder).
Defined.

(** The engine reports one byte more than it wrote of the pair (1, 2). *)
Lemma SignECDSA_drops_trailing_bytes_witness :
  SignMarshalECDSA (PrivateKeyECDSA.mk 10) []
    (Replay.world [72; 1; 9] Replay.der12)
  = (Returns (fst (asn1.Marshal (ecdsaSignature.mk (Some 1) (Some 2)))
              ++ [Byte.x00], None),
     mkWorld (Replay.mk [] Replay.der12) []
       [Call fn_ECDSA_size 72; Call fn_ECDSA_sign 1; KeepAlive 10] [])
  /\ SignECDSA (PrivateKeyECDSA.mk 10) []
       (Replay.world [72; 1; 9] Replay.der12)
     = (Returns (Some 1, Some 2, None),
        mkWorld (Replay.mk [] Replay.der12) []
          [Call fn_ECDSA_size 72; Call fn_ECDSA_sign 1; KeepAlive 10] []).
Proof.
  assert (Hrun :
    SignMarshalECDSA (PrivateKeyECDSA.mk 10) []
      (Replay.world [72; 1; 9] Replay.der12)
    = (Returns (fst (asn1.Marshal (ecdsaSignature.mk (Some 1) (Some 2)))
                ++ [Byte.x00], None),
       mkWorld (Replay.mk [] Replay.der12) []
         [Call fn_ECDSA_size 72; Call fn_ECDSA_sign 1; KeepAlive 10] []))
    by (vm_compute; reflexivity).
  split; [exact Hrun|].
  exact (proj1 (SignECDSA_drops_trailing_bytes _ _ _ _ _ _ _ Hrun)).
Defined.

(** The conversion of Y returns null: no setter is called. *)
Lemma failed_step_stops_setters_witness :
  In (Call fn_bigToBN 0)
    (since (Replay.world [10; 11; 12; 13; 0] [])
       (snd (newECKey "P-256" 5 6 (Replay.world [10; 11; 12; 13; 0] []))))
  /\ ~ In (Call fn_EC_POINT_set_affine_coordinates_GFp 1)
         (since (Replay.world [10; 11; 12; 13; 0] [])
            (snd (newECKey "P-256" 5 6
                    (Replay.world [10; 11; 12; 13; 0] [])))).
Proof.
  assert (Hev : In (Call fn_bigToBN 0)
            (since (Replay.world [10; 11; 12; 13; 0] [])
               (snd (newECKey "P-256" 5 6
                       (Replay.world [10; 11; 12; 13; 0] [])))))
    by (vm_compute; tauto).
  split; [exact Hev|].
  destruct (@failed_step_stops_setters Replay.script Replay.engine
              "P-256"%string 5 6 7 (Replay.world [10; 11; 12; 13; 0] []))
    as [[Hconv _] _].
  exact (proj1 (Hconv Hev 1)).
Defined.


(** Key generation fails at its second step. *)
Lemma GenerateKeyECDSA_messages_witness :
  GenerateKeyECDSA "P-256" (Replay.world [10; 0] [])
  = (Returns (None, None, None,
              Some (OpenSSLError "EC_KEY_generate_key failed" "")),
     snd (GenerateKeyECDSA "P-256" (Replay.world [10; 0] [])))
  /\ (exists f, In (Call f 0)
        (since (Replay.world [10; 0] [])
           (snd (GenerateKeyECDSA "P-256" (Replay.world [10; 0] []))))).
Proof.
  assert (Hrun :
    GenerateKeyECDSA "P-256" (Replay.world [10; 0] [])
    = (Returns (None, None, None,
                Some (OpenSSLError "EC_KEY_generate_key failed" "")),
       snd (GenerateKeyECDSA "P-256" (Replay.world [10; 0] []))))
    by (vm_compute; reflexivity).
  split; [exact Hrun|].
  destruct (GenerateKeyECDSA_messages _ _ _ _ _ _ _ _ Hrun)
    as [[H _]|[[H _]|[[[H|H] _]|[[H _]|[H _]]]]]; eexists; exact H.
Defined.


(** The releases of a successful construction. *)
Lemma releases_only_own_allocations_witness :
  In (Release EC_POINT 12)
    (since (Replay.world [10; 11; 12; 13; 14] [])
       (snd (newECKey "P-256" 5 6 (Replay.world [10; 11; 12; 13; 14] []))))
  /\ exists f,
       allocates f EC_POINT = true
       /\ In (Call f 12)
            (since (Replay.world [10; 11; 12; 13; 14] [])
               (snd (newECKey "P-256" 5 6
                       (Replay.world [10; 11; 12; 13; 14] [])))).
Proof.
  assert (Hev : In (Release EC_POINT 12)
    (since (Replay.world [10; 11; 12; 13; 14] [])
       (snd (newECKey "P-256" 5 6 (Replay.world [10; 11; 12; 13; 14] [])))))
    by (vm_compute; tauto).
  split; [exact Hev|].
  destruct (@releases_only_own_allocations Replay.script Replay.engine
              "P-256"%string 5 6 7 (Replay.world [10; 11; 12; 13; 14] []))
    as [Hnew _].
  exact (proj2 (Hnew _ _ Hev)).
Defined.
